(** * Zaim MCP server: condition evaluator, paginated fetch, output formatter
      and bulk mutation tools

    A shallow embedding of

    - [src/utils/search-condition-evaluator.ts] (condition evaluator, sort,
      output formatter),
    - [src/utils/pagination-helper.ts] (page walker, date-range splitter,
      deduplication),
    - [src/tools/advanced/bulk-update-tool.ts] and
      [src/tools/advanced/bulk-delete-tool.ts] (bulk mutation tools),
    - [src/types/advanced-search.ts] (condition and update types),

    followed by the properties proved about them.

    Conventions of the embedding.

    - A JavaScript [number] is an integer of [Z]: identifiers, amounts, counts
      and page numbers are integers; fractions, [NaN] and infinities are not
      represented.
    - A JavaScript string is a [string] of code units, and its [length] the
      number of them.  On ASCII text a code unit is a character; [toLowerCase]
      folds the ASCII letters only.
    - A property of an object that arrives from the remote service is a
      [slot]: it may be absent from the object, or hold [undefined], [null]
      or a value of the type the TypeScript declaration gives it.
    - Code that talks to the remote service runs in the monad [M]: it threads
      the log of remote calls issued so far and may throw.
    - [await delay(ms)] and [setTimeout] change nothing that is modelled and
      are left out. *)

From stdpp Require Import gmap strings list fin_maps pretty.
From Stdlib Require Import ZArith String Ascii Lia.

Local Open Scope string_scope.
Local Open Scope list_scope.
Local Open Scope Z_scope.

(* ===================================================================== *)
(** * Part I.  The program                                                *)
(* ===================================================================== *)

(** ** JavaScript values *)

(** A property of an object read from JSON or built by a caller. *)
Inductive slot (A : Type) : Type :=
| Absent                (* the key is not in the object *)
| Undefined             (* the key is there and holds [undefined] *)
| Null                  (* the key holds [null] *)
| Present (a : A).
Arguments Absent {A}.
Arguments Undefined {A}.
Arguments Null {A}.
Arguments Present {A} a.

(** [v === undefined || v === null]; reading an absent key gives [undefined]. *)
Definition nullish {A} (v : slot A) : bool :=
  match v with Present _ => false | _ => true end.

(** [key in object] *)
Definition has_key {A} (v : slot A) : bool :=
  match v with Absent => false | _ => true end.

(** Values of type [unknown], as stored in [Record<string, unknown>]. *)
Inductive jsval : Type :=
| JUndefined
| JNull
| JNum (n : Z)
| JStr (s : string).

#[global] Instance jsval_eq_dec : EqDecision jsval.
Proof. solve_decision. Defined.

Definition jsval_encode (v : jsval) : unit + unit + (Z + string) :=
  match v with
  | JUndefined => inl (inl tt)
  | JNull => inl (inr tt)
  | JNum n => inr (inl n)
  | JStr s => inr (inr s)
  end.

Definition jsval_decode (x : unit + unit + (Z + string)) : jsval :=
  match x with
  | inl (inl _) => JUndefined
  | inl (inr _) => JNull
  | inr (inl n) => JNum n
  | inr (inr s) => JStr s
  end.

#[global] Instance jsval_countable : Countable jsval :=
  inj_countable' jsval_encode jsval_decode
    (fun v => match v with
              | JUndefined => eq_refl
              | JNull => eq_refl
              | JNum _ => eq_refl
              | JStr _ => eq_refl
              end).

(** The value an expression [object.key] evaluates to. *)
Definition read {A} (inj : A -> jsval) (v : slot A) : jsval :=
  match v with
  | Present a => inj a
  | Null => JNull
  | Undefined | Absent => JUndefined
  end.

(** [a ?? b] *)
Definition coalesce (a b : jsval) : jsval :=
  match a with
  | JUndefined | JNull => b
  | _ => a
  end.

(** Interpolation [`${v}`] in a template literal. *)
Definition toString (v : jsval) : string :=
  match v with
  | JUndefined => "undefined"
  | JNull => "null"
  | JNum n => pretty n
  | JStr s => s
  end.

(** A thrown value: an [Error] with its message, or anything else. *)
Inductive Thrown : Type :=
| ErrorObject (message : string)
| NotAnError.

(** ** Strings *)

Definition lower_ascii (c : ascii) : ascii :=
  let n := nat_of_ascii c in
  if ((65 <=? n) && (n <=? 90))%nat then ascii_of_nat (n + 32) else c.

Fixpoint toLowerCase (s : string) : string :=
  match s with
  | EmptyString => EmptyString
  | String c s' => String (lower_ascii c) (toLowerCase s')
  end.

(** [s.startsWith(t)] *)
Definition startsWith (s t : string) : bool := String.prefix t s.

(** [s.includes(t)] *)
Fixpoint includes (s t : string) : bool :=
  startsWith s t ||
  match s with
  | EmptyString => false
  | String _ s' => includes s' t
  end.

(** [s.endsWith(t)] *)
Fixpoint endsWith (s t : string) : bool :=
  String.eqb s t ||
  match s with
  | EmptyString => false
  | String _ s' => endsWith s' t
  end.

(** [s.slice(0, n)] *)
Definition slice0 (n : nat) (s : string) : string := String.substring 0 n s.

(** [xs.join(sep)] *)
Definition join (sep : string) (xs : list string) : string := String.concat sep xs.

(** [s.split(sep)]: the pieces of [s] between the successive occurrences of
    [sep], scanned from the left; an empty [sep] cuts [s] into its code
    units.  [skip] counts the code units of a separator just matched that are
    still to be passed over, [cur] is the piece being read. *)
Fixpoint split_from (sep : string) (skip : nat) (cur : string) (s : string)
  : list string :=
  match s with
  | EmptyString => [cur]
  | String c s' =>
      match skip with
      | S k => split_from sep k cur s'
      | O =>
          if String.prefix sep s
          then cur :: split_from sep (String.length sep - 1) EmptyString s'
          else split_from sep O (cur ++ String c EmptyString)%string s'
      end
  end.

Fixpoint code_units (s : string) : list string :=
  match s with
  | EmptyString => []
  | String c s' => String c EmptyString :: code_units s'
  end.

Definition split (s sep : string) : list string :=
  match sep with
  | EmptyString => code_units s
  | _ => split_from sep O EmptyString s
  end.

(** ** Ledger records ([ZaimMoney], src/types/zaim-api.ts) *)

Inductive Mode : Type := payment | income | transfer.

#[global] Instance Mode_eq_dec : EqDecision Mode.
Proof. solve_decision. Defined.

Definition mode_name (m : Mode) : string :=
  match m with
  | payment => "payment"
  | income => "income"
  | transfer => "transfer"
  end.

Module Money.
Record ZaimMoney : Type := mk {
  id : slot Z;
  mode : slot Mode;
  user_id : slot Z;
  date : slot string;
  category_id : slot Z;
  genre_id : slot Z;
  account_id : slot Z;
  amount : slot Z;
  comment : slot string;
  place : slot string;
  name : slot string;
  active : slot Z;
  created : slot string;
  currency_code : slot string;
  category : slot string;
  genre : slot string;
  account : slot string;
  from_account_id : slot Z;
  to_account_id : slot Z
}.

(** The object [{}]. *)
Definition empty : ZaimMoney :=
  mk Absent Absent Absent Absent Absent Absent Absent Absent Absent Absent
     Absent Absent Absent Absent Absent Absent Absent Absent Absent.
End Money.
Abbreviation ZaimMoney := Money.ZaimMoney.

(** ** Search conditions (src/types/advanced-search.ts) *)

Inductive StringField : Type :=
| Fplace | Fname | Fcomment | Fcategory | Fgenre | Faccount.

Inductive NumberField : Type :=
| Fid | Fcategory_id | Fgenre_id | Faccount_id | Ffrom_account_id
| Fto_account_id | Famount.

Definition string_field_name (f : StringField) : string :=
  match f with
  | Fplace => "place" | Fname => "name" | Fcomment => "comment"
  | Fcategory => "category" | Fgenre => "genre" | Faccount => "account"
  end.

Definition number_field_name (f : NumberField) : string :=
  match f with
  | Fid => "id" | Fcategory_id => "category_id" | Fgenre_id => "genre_id"
  | Faccount_id => "account_id" | Ffrom_account_id => "from_account_id"
  | Fto_account_id => "to_account_id" | Famount => "amount"
  end.

(** [record[condition.field]] for a string field. *)
Definition string_field (record : ZaimMoney) (f : StringField) : slot string :=
  match f with
  | Fplace => Money.place record
  | Fname => Money.name record
  | Fcomment => Money.comment record
  | Fcategory => Money.category record
  | Fgenre => Money.genre record
  | Faccount => Money.account record
  end.

(** [record[condition.field]] for a numeric field. *)
Definition number_field (record : ZaimMoney) (f : NumberField) : slot Z :=
  match f with
  | Fid => Money.id record
  | Fcategory_id => Money.category_id record
  | Fgenre_id => Money.genre_id record
  | Faccount_id => Money.account_id record
  | Ffrom_account_id => Money.from_account_id record
  | Fto_account_id => Money.to_account_id record
  | Famount => Money.amount record
  end.

Inductive StringOperator : Type :=
| SEquals | SContains | SStartsWith | SEndsWith.

Inductive NumberOperator : Type :=
| NEquals | NNotEquals | NGreaterThan | NLessThan | NGreaterOrEqual
| NLessOrEqual | NBetween.

Inductive DateOperator : Type :=
| DEquals | DBefore | DAfter | DBetween | DOnOrBefore | DOnOrAfter.

Inductive ModeOperator : Type := MEquals.

(** The four predicate shapes.  The schema makes [field] and [operator]
    mandatory; [isEmptyCriteria] nevertheless tests for objects that lack
    one of them, so [operator] is optional here ([None]: the object has no
    [operator] key) and [Fieldless] below stands for a predicate object
    without a [field] key. *)
Inductive StringCondition : Type :=
  mkStringCondition (field : StringField) (operator : option StringOperator)
                    (value : string) (caseSensitive : option bool).

Inductive NumberCondition : Type :=
  mkNumberCondition (field : NumberField) (operator : option NumberOperator)
                    (value min max : option Z).

Inductive DateCondition : Type :=
  mkDateCondition (operator : option DateOperator)
                  (value startDate endDate : option string).

Inductive ModeCondition : Type :=
  mkModeCondition (operator : option ModeOperator) (value : Mode).

Inductive SearchCondition : Type :=
| OfString (c : StringCondition)
| OfNumber (c : NumberCondition)
| OfDate (c : DateCondition)
| OfMode (c : ModeCondition)
| Fieldless.

Inductive LogicalOperator : Type := AND | OR.

Inductive SearchCriteria : Type :=
| Single (condition : SearchCondition)
| Composite (composite : CompositeCondition)
with CompositeCondition : Type :=
| mkComposite (operator : LogicalOperator) (conditions : list SearchCriteria).

(** [condition.field], when the object has one. *)
Definition condition_field (c : SearchCondition) : option string :=
  match c with
  | OfString (mkStringCondition f _ _ _) => Some (string_field_name f)
  | OfNumber (mkNumberCondition f _ _ _ _) => Some (number_field_name f)
  | OfDate _ => Some "date"
  | OfMode _ => Some "mode"
  | Fieldless => None
  end.

(** ['operator' in condition] *)
Definition has_operator (c : SearchCondition) : bool :=
  match c with
  | OfString (mkStringCondition _ o _ _) => bool_decide (is_Some o)
  | OfNumber (mkNumberCondition _ o _ _ _) => bool_decide (is_Some o)
  | OfDate (mkDateCondition o _ _ _) => bool_decide (is_Some o)
  | OfMode (mkModeCondition o _) => bool_decide (is_Some o)
  | Fieldless => false
  end.

(** [isCompositeCondition]: the object has an [operator] that is ['AND'] or
    ['OR'] and a [conditions] key.  The functions below that branch on it are
    written with a [match] on the two shapes. *)
Definition isCompositeCondition (criteria : SearchCriteria) : bool :=
  match criteria with
  | Composite _ => true
  | Single _ => false
  end.

(** ** The condition evaluator (src/utils/search-condition-evaluator.ts) *)

Definition evaluateStringCondition (record : ZaimMoney) (condition : StringCondition)
  : bool :=
  let '(mkStringCondition field operator value caseSensitive) := condition in
  match string_field record field with
  | Present fieldValue =>
      let valueStr := fieldValue in        (* [String(fieldValue)] of a string *)
      let sensitive := default false caseSensitive in
      let searchValue := if sensitive then value else toLowerCase value in
      let compareValue := if sensitive then valueStr else toLowerCase valueStr in
      match operator with
      | Some SEquals => String.eqb compareValue searchValue
      | Some SContains => includes compareValue searchValue
      | Some SStartsWith => startsWith compareValue searchValue
      | Some SEndsWith => endsWith compareValue searchValue
      | None => false
      end
  | Absent | Undefined | Null => false
  end.

Definition evaluateNumberCondition (record : ZaimMoney) (condition : NumberCondition)
  : bool :=
  let '(mkNumberCondition field operator value min max) := condition in
  match number_field record field with
  | Present fieldValue =>
      (* [Number(fieldValue)] of a number; [isNaN] is false on an integer *)
      let numValue := fieldValue in
      match operator with
      | Some NEquals =>
          match value with Some v => numValue =? v | None => false end
      | Some NNotEquals =>
          match value with Some v => negb (numValue =? v) | None => true end
      | Some NGreaterThan =>
          match value with Some v => numValue >? v | None => false end
      | Some NLessThan =>
          match value with Some v => numValue <? v | None => false end
      | Some NGreaterOrEqual =>
          match value with Some v => numValue >=? v | None => false end
      | Some NLessOrEqual =>
          match value with Some v => numValue <=? v | None => false end
      | Some NBetween =>
          match min, max with
          | Some lo, Some hi => (numValue >=? lo) && (numValue <=? hi)
          | _, _ => false
          end
      | None => false
      end
  | Absent | Undefined | Null => false
  end.

(** [a < b], [a <= b] on strings: code-unit order. *)
Definition str_lt (a b : string) : bool := String.ltb a b.
Definition str_le (a b : string) : bool := String.leb a b.

Definition evaluateDateCondition (record : ZaimMoney) (condition : DateCondition)
  : bool :=
  let '(mkDateCondition operator value startDate endDate) := condition in
  match Money.date record with
  | Present fieldValue =>
      if String.eqb fieldValue "" then false      (* [!fieldValue] *)
      else
        let recordDate := slice0 10 fieldValue in
        match operator with
        | Some DEquals =>
            match value with Some v => String.eqb recordDate v | None => false end
        | Some DBefore =>
            match value with Some v => str_lt recordDate v | None => false end
        | Some DAfter =>
            match value with Some v => str_lt v recordDate | None => false end
        | Some DOnOrBefore =>
            match value with Some v => str_le recordDate v | None => false end
        | Some DOnOrAfter =>
            match value with Some v => str_le v recordDate | None => false end
        | Some DBetween =>
            match startDate, endDate with
            | Some s, Some e => str_le s recordDate && str_le recordDate e
            | _, _ => false
            end
        | None => false
        end
  | Absent | Undefined | Null => false
  end.

Definition evaluateModeCondition (record : ZaimMoney) (condition : ModeCondition)
  : bool :=
  let '(mkModeCondition _ value) := condition in
  match Money.mode record with
  | Present m => bool_decide (m = value)
  | Absent | Undefined | Null => false
  end.

Definition evaluateCondition (record : ZaimMoney) (condition : SearchCondition)
  : bool :=
  match condition with
  | OfString c => evaluateStringCondition record c
  | OfNumber c => evaluateNumberCondition record c
  | OfDate c => evaluateDateCondition record c
  | OfMode c => evaluateModeCondition record c
  | Fieldless => false
  end.

Fixpoint evaluateCompositeCondition (record : ZaimMoney)
         (composite : CompositeCondition) {struct composite} : bool :=
  let '(mkComposite operator conditions) := composite in
  match conditions with
  | [] => true
  | _ :: _ =>
      match operator with
      | AND =>
          forallb (fun cond =>
                     match cond with
                     | Composite c => evaluateCompositeCondition record c
                     | Single c => evaluateCondition record c
                     end) conditions
      | OR =>
          existsb (fun cond =>
                     match cond with
                     | Composite c => evaluateCompositeCondition record c
                     | Single c => evaluateCondition record c
                     end) conditions
      end
  end.

Definition evaluateCriteria (record : ZaimMoney) (criteria : SearchCriteria) : bool :=
  match criteria with
  | Composite c => evaluateCompositeCondition record c
  | Single c => evaluateCondition record c
  end.

Definition filterRecords (records : list ZaimMoney) (criteria : SearchCriteria)
  : list ZaimMoney :=
  List.filter (fun record => evaluateCriteria record criteria) records.

(** ** Calendar dates

    [new Date(s)] is modelled for the form [YYYY-MM-DD] that the tools
    document, read as the ECMAScript date-time string format prescribes: the
    value is midnight UTC of that day, and a string of another shape or with
    a month or day out of range is an invalid date.  A valid [Date] is the
    number of days from 1970-01-01; the process is taken to run in UTC, so
    that [getDate], [setDate] and [getFullYear] work on that day count. *)

Definition digit_of (c : ascii) : option Z :=
  let n := nat_of_ascii c in
  if ((48 <=? n) && (n <=? 57))%nat then Some (Z.of_nat (n - 48)) else None.

Fixpoint digits_value (acc : Z) (cs : list ascii) : option Z :=
  match cs with
  | [] => Some acc
  | c :: cs' =>
      match digit_of c with
      | Some d => digits_value (acc * 10 + d) cs'
      | None => None
      end
  end.

Definition is_leap (y : Z) : bool :=
  ((y mod 4 =? 0) && negb (y mod 100 =? 0)) || (y mod 400 =? 0).

Definition days_in_month (y m : Z) : Z :=
  if m =? 2 then (if is_leap y then 29 else 28)
  else if (m =? 4) || (m =? 6) || (m =? 9) || (m =? 11) then 30
  else 31.

(** Days from 1970-01-01 to the civil date [y]-[m]-[d]. *)
Definition days_from_civil (y m d : Z) : Z :=
  let y' := if m <=? 2 then y - 1 else y in
  let era := y' / 400 in
  let yoe := y' - era * 400 in
  let mp := (m + 9) mod 12 in
  let doy := (153 * mp + 2) / 5 + d - 1 in
  let doe := yoe * 365 + yoe / 4 - yoe / 100 + doy in
  era * 146097 + doe - 719468.

(** The civil date (year, month, day) of a day count. *)
Definition civil_from_days (days : Z) : Z * Z * Z :=
  let z := days + 719468 in
  let era := z / 146097 in
  let doe := z - era * 146097 in
  let yoe := (doe - doe / 1460 + doe / 36524 - doe / 146096) / 365 in
  let y := yoe + era * 400 in
  let doy := doe - (365 * yoe + yoe / 4 - yoe / 100) in
  let mp := (5 * doy + 2) / 153 in
  let d := doy - (153 * mp + 2) / 5 + 1 in
  let m := if mp <? 10 then mp + 3 else mp - 9 in
  (if m <=? 2 then y + 1 else y, m, d).

(** [new Date(s)]: [None] is the invalid date, whose [getTime()] is [NaN]. *)
Definition parseDate (s : string) : option Z :=
  match list_ascii_of_string s with
  | [y1; y2; y3; y4; "-"%char; m1; m2; "-"%char; d1; d2] =>
      match digits_value 0 [y1; y2; y3; y4], digits_value 0 [m1; m2],
            digits_value 0 [d1; d2] with
      | Some y, Some m, Some d =>
          if (1 <=? m) && (m <=? 12) && (1 <=? d) && (d <=? days_in_month y m)
          then Some (days_from_civil y m d)
          else None
      | _, _, _ => None
      end
  | _ => None
  end.

(** [String(n).padStart(2, '0')] *)
Definition padStart2 (n : Z) : string :=
  let s := pretty n in
  if (String.length s <? 2)%nat then ("0" ++ s)%string else s.

Definition formatDate (date : Z) : string :=
  let '(year, month, day) := civil_from_days date in
  (pretty year ++ "-" ++ padStart2 month ++ "-" ++ padStart2 day)%string.

Record DateRange : Type := { range_start : string; range_end : string }.

(** The [while (currentStart <= end)] loop of [splitDateRange].  Each turn
    moves [currentStart] forward by at least one day when [daysPerChunk] is at
    least 1, so [fuel] turns are enough once [fuel] exceeds the number of days
    left ([split_loop_fuel] below). *)
Fixpoint split_loop (fuel : nat) (daysPerChunk currentStart end_ : Z)
  : list DateRange :=
  match fuel with
  | O => []
  | S fuel' =>
      if currentStart <=? end_ then
        let chunkEnd := currentStart + daysPerChunk - 1 in
        let actualEnd := if chunkEnd >? end_ then end_ else chunkEnd in
        {| range_start := formatDate currentStart;
           range_end := formatDate actualEnd |}
          :: split_loop fuel' daysPerChunk (actualEnd + 1) end_
      else []
  end.

Definition splitDateRange (startDate endDate : string) (daysPerChunk : Z)
  : list DateRange :=
  match parseDate startDate, parseDate endDate with
  | Some start, Some end_ =>
      if start >? end_ then []
      else split_loop (Z.to_nat (end_ - start + 1)) daysPerChunk start end_
  | _, _ => []
  end.

(** ** Remote calls and the monad of effects *)

Module SearchParams.
(** [MoneySearchParams] (src/types/zaim-api.ts). *)
Record MoneySearchParams : Type := mk {
  start_date : option string;
  end_date : option string;
  category_id : option Z;
  genre_id : option Z;
  account_id : option Z;
  mode : option Mode;
  page : option Z;
  limit : option Z
}.

(** The object [{}]. *)
Definition empty : MoneySearchParams :=
  mk None None None None None None None None.
End SearchParams.
Abbreviation MoneySearchParams := SearchParams.MoneySearchParams.

(** The query object that [fetchMoneyRecords] sends; [mapping: 1] is always
    part of it. *)
Record QueryParams : Type := {
  q_start_date : option string;
  q_end_date : option string;
  q_page : option Z;
  q_limit : option Z
}.

(** A call on the API client. *)
Inductive Call : Type :=
| Get (endpoint : string) (queryParams : QueryParams)
| Put (endpoint : string) (body : gmap string jsval)
| Delete (endpoint : string).

(** What [client.get] resolves to: an object whose [money] is an array, or
    anything else. *)
Inductive Response : Type :=
| MoneyResponse (money : list ZaimMoney)
| OtherResponse.

Inductive Outcome (A : Type) : Type :=
| Returned (a : A)
| Threw (e : Thrown).
Arguments Returned {A} a.
Arguments Threw {A} e.

(** The remote service and the token store, which the tools reach through
    [TokenStorage.createZaimApiClient()]: whether creating the client throws,
    and what the service answers to a call given the calls made before. *)
Record Remote : Type := {
  client_failure : option Thrown;
  respond : list Call -> Call -> Outcome Response
}.

(** A computation reads and extends the log of calls issued so far. *)
Definition M (A : Type) : Type := list Call -> Outcome A * list Call.

Definition ret {A} (a : A) : M A := fun log => (Returned a, log).

Definition throw {A} (e : Thrown) : M A := fun log => (Threw e, log).

Definition bind {A B} (m : M A) (k : A -> M B) : M B :=
  fun log =>
    match m log with
    | (Returned a, log') => k a log'
    | (Threw e, log') => (Threw e, log')
    end.

(** [try { m } catch (error) { handler }] *)
Definition try_catch {A} (m : M A) (handler : Thrown -> M A) : M A :=
  fun log =>
    match m log with
    | (Returned a, log') => (Returned a, log')
    | (Threw e, log') => handler e log'
    end.

Notation "x <- m ;; k" := (bind m (fun x => k))
  (at level 100, m at next level, right associativity).

(** [error instanceof Error ? error.message : fallback] *)
Definition message_or (fallback : string) (e : Thrown) : string :=
  match e with
  | ErrorObject message => message
  | NotAnError => fallback
  end.

Definition len {A} (l : list A) : Z := Z.of_nat (List.length l).

(** [xs.slice(0, n)] *)
Definition slice_to {A} (n : Z) (xs : list A) : list A :=
  if n <? 0 then take (Z.to_nat (len xs + n)) xs else take (Z.to_nat n) xs.

Section Client.
Variable remote : Remote.

(** [TokenStorage.createZaimApiClient()] *)
Definition createZaimApiClient : M unit :=
  match client_failure remote with
  | Some e => throw e
  | None => ret tt
  end.

(** One call on the client: it is logged and answered by the service. *)
Definition perform (c : Call) : M Response :=
  fun log => (respond remote log c, log ++ [c]).

(** [fetchMoneyRecords], the page fetcher that the three tools define alike. *)
Definition fetchMoneyRecords (params : MoneySearchParams) : M (list ZaimMoney) :=
  _ <- createZaimApiClient ;;
  let truthy_string (v : option string) :=
    match v with Some "" => None | _ => v end in
  let truthy_number (v : option Z) :=
    match v with Some 0 => None | _ => v end in
  let queryParams :=
    {| q_start_date := truthy_string (SearchParams.start_date params);
       q_end_date := truthy_string (SearchParams.end_date params);
       q_page := truthy_number (SearchParams.page params);
       q_limit := truthy_number (SearchParams.limit params) |} in
  response <- perform (Get "/v2/home/money" queryParams) ;;
  match response with
  | MoneyResponse money => ret money
  | OtherResponse => ret []
  end.

End Client.

(** ** Pagination (src/utils/pagination-helper.ts) *)

Module Pagination.
(** [Partial<PaginationOptions>], as a caller passes it. *)
Record PaginationOptions : Type := mk {
  startPage : option Z;
  pageSize : option Z;
  maxRecords : option Z;
  maxPages : option Z;
  delayBetweenRequests : option Z
}.

(** The object [{}]. *)
Definition empty : PaginationOptions := mk None None None None None.
End Pagination.
Abbreviation PaginationOptions := Pagination.PaginationOptions.

(** The options after [PaginationOptionsSchema.parse], defaults applied. *)
Record ParsedOptions : Type := {
  opts_startPage : Z;
  opts_pageSize : Z;
  opts_maxRecords : option Z;
  opts_maxPages : Z;
  opts_delayBetweenRequests : Z
}.

(** [PaginationOptionsSchema.parse(options)]; [None] when the schema rejects
    the options and [parse] throws. *)
Definition parseOptions (options : PaginationOptions) : option ParsedOptions :=
  let startPage := default 1 (Pagination.startPage options) in
  let pageSize := default 100 (Pagination.pageSize options) in
  let maxPages := default 100 (Pagination.maxPages options) in
  let delayBetweenRequests := default 200 (Pagination.delayBetweenRequests options) in
  if (0 <? startPage) && (0 <? pageSize) && (pageSize <=? 100)
     && (match Pagination.maxRecords options with
         | Some m => 0 <? m
         | None => true
         end)
     && (0 <? maxPages) && (0 <=? delayBetweenRequests)
  then Some {| opts_startPage := startPage;
               opts_pageSize := pageSize;
               opts_maxRecords := Pagination.maxRecords options;
               opts_maxPages := maxPages;
               opts_delayBetweenRequests := delayBetweenRequests |}
  else None.

Record PaginationResult : Type := {
  records : list ZaimMoney;
  pagesRetrieved : Z;
  totalRecords : Z;
  hasMore : bool;
  hasError : bool;
  errorMessage : option string
}.

(** [FetchFunction<ZaimMoney>] *)
Definition FetchFunction : Type := MoneySearchParams -> M (list ZaimMoney).

(** [{ ...baseParams, page, limit }] *)
Definition with_page (baseParams : MoneySearchParams) (page limit : Z)
  : MoneySearchParams :=
  SearchParams.mk
    (SearchParams.start_date baseParams) (SearchParams.end_date baseParams)
    (SearchParams.category_id baseParams) (SearchParams.genre_id baseParams)
    (SearchParams.account_id baseParams) (SearchParams.mode baseParams)
    (Some page) (Some limit).

(** [{ ...baseParams, start_date, end_date }] *)
Definition with_dates (baseParams : MoneySearchParams) (range : DateRange)
  : MoneySearchParams :=
  SearchParams.mk
    (Some (range_start range)) (Some (range_end range))
    (SearchParams.category_id baseParams) (SearchParams.genre_id baseParams)
    (SearchParams.account_id baseParams) (SearchParams.mode baseParams)
    (SearchParams.page baseParams) (SearchParams.limit baseParams).

(** How the [while (hasMore)] loop of [fetchAllRecords] ends: by leaving the
    loop, with the value of [hasMore], or by an exception of the page
    fetcher, which the enclosing [catch] sees together with the variables
    [currentPage] and [allRecords] as they stand. *)
Inductive LoopExit : Type :=
| Finished (currentPage : Z) (allRecords : list ZaimMoney) (hasMore : bool)
| Failed (currentPage : Z) (allRecords : list ZaimMoney) (error : Thrown).

(** [opts.maxRecords !== undefined && n >= opts.maxRecords] *)
Definition reached (maxRecords : option Z) (n : Z) : bool :=
  match maxRecords with
  | Some m => n >=? m
  | None => false
  end.

(** [maxRecords !== undefined && n > maxRecords] *)
Definition exceeded (maxRecords : option Z) (n : Z) : bool :=
  match maxRecords with
  | Some m => n >? m
  | None => false
  end.

(** The loop of [fetchAllRecords].  Every turn that does not leave the loop
    increments [currentPage], and the first test leaves it once
    [opts.maxPages] pages are behind, so [fuel] never runs out when it starts
    above [opts.maxPages] ([fetch_pages_fuel] below). *)
Fixpoint fetch_pages (fetchFn : FetchFunction) (baseParams : MoneySearchParams)
         (opts : ParsedOptions) (fuel : nat) (currentPage : Z)
         (allRecords : list ZaimMoney) (log : list Call)
  : LoopExit * list Call :=
  match fuel with
  | O => (Finished currentPage allRecords true, log)
  | S fuel' =>
      if currentPage - opts_startPage opts + 1 >? opts_maxPages opts
      then (Finished currentPage allRecords true, log)
      else if reached (opts_maxRecords opts) (len allRecords)
      then (Finished currentPage allRecords true, log)
      else
        let params := with_page baseParams currentPage (opts_pageSize opts) in
        match fetchFn params log with
        | (Threw e, log') => (Failed currentPage allRecords e, log')
        | (Returned page, log') =>
            let allRecords' := allRecords ++ page in
            if len page <? opts_pageSize opts
            then (Finished currentPage allRecords' false, log')
            else fetch_pages fetchFn baseParams opts fuel' (currentPage + 1)
                             allRecords' log'
        end
  end.

Section Fetch.
(** The text of the error that the schema library raises for rejected
    options. *)
Variable zod_message : PaginationOptions -> string.

Definition fetchAllRecords (fetchFn : FetchFunction)
           (baseParams : MoneySearchParams) (options : PaginationOptions)
  : M PaginationResult :=
  match parseOptions options with
  | None => throw (ErrorObject (zod_message options))
  | Some opts =>
      fun log =>
        let '(exit, log') :=
          fetch_pages fetchFn baseParams opts
                      (S (Z.to_nat (opts_maxPages opts)))
                      (opts_startPage opts) [] log in
        match exit with
        | Finished currentPage allRecords hasMore =>
            let '(finalRecords, hasMore) :=
              match opts_maxRecords opts with
              | Some maxRecords =>
                  if len allRecords >? maxRecords
                  then (slice_to maxRecords allRecords, true)
                  else (allRecords, hasMore)
              | None => (allRecords, hasMore)
              end in
            (Returned
               {| records := finalRecords;
                  pagesRetrieved := currentPage - opts_startPage opts + 1;
                  totalRecords := len finalRecords;
                  hasMore := hasMore;
                  hasError := false;
                  errorMessage := None |}, log')
        | Failed currentPage allRecords error =>
            (Returned
               {| records := allRecords;
                  pagesRetrieved := currentPage - opts_startPage opts + 1;
                  totalRecords := len allRecords;
                  hasMore := true;
                  hasError := true;
                  errorMessage := Some (message_or "Unknown error occurred" error) |},
             log')
        end
  end.

(** The identity of a record: the value of [record.id]. *)
Definition record_id (record : ZaimMoney) : jsval := read JNum (Money.id record).

(** [records.filter(...)] of [removeDuplicates], with the set [seen]. *)
Fixpoint remove_seen (seen : gset jsval) (records : list ZaimMoney)
  : list ZaimMoney :=
  match records with
  | [] => []
  | record :: rest =>
      if bool_decide (record_id record ∈ seen)
      then remove_seen seen rest
      else record :: remove_seen ({[record_id record]} ∪ seen) rest
  end.

Definition removeDuplicates (records : list ZaimMoney) : list ZaimMoney :=
  remove_seen ∅ records.

(** The variables of [fetchByDateRanges] when its [for] loop is left. *)
Record Accumulated : Type := {
  acc_allRecords : list ZaimMoney;
  acc_totalPagesRetrieved : Z;
  acc_hasError : bool;
  acc_errorMessage : option string
}.

(** The [for (const range of ranges)] loop of [fetchByDateRanges]. *)
Fixpoint collect_ranges (fetchFn : FetchFunction) (baseParams : MoneySearchParams)
         (options : PaginationOptions) (ranges : list DateRange)
         (allRecords : list ZaimMoney) (totalPagesRetrieved : Z)
  : M Accumulated :=
  match ranges with
  | [] =>
      ret {| acc_allRecords := allRecords;
             acc_totalPagesRetrieved := totalPagesRetrieved;
             acc_hasError := false;
             acc_errorMessage := None |}
  | range :: rest =>
      result <- fetchAllRecords fetchFn (with_dates baseParams range) options ;;
      let allRecords' := allRecords ++ records result in
      let totalPagesRetrieved' := totalPagesRetrieved + pagesRetrieved result in
      if hasError result then
        ret {| acc_allRecords := allRecords';
               acc_totalPagesRetrieved := totalPagesRetrieved';
               acc_hasError := true;
               acc_errorMessage := errorMessage result |}
      else if reached (Pagination.maxRecords options) (len allRecords') then
        ret {| acc_allRecords := allRecords';
               acc_totalPagesRetrieved := totalPagesRetrieved';
               acc_hasError := false;
               acc_errorMessage := None |}
      else collect_ranges fetchFn baseParams options rest
                          allRecords' totalPagesRetrieved'
  end.

(** What [fetchByDateRanges] returns once the loop has left [acc]. *)
Definition finish_ranges (options : PaginationOptions) (acc : Accumulated)
  : PaginationResult :=
  let allRecords := acc_allRecords acc in
  let '(finalRecords, hasMore) :=
    match Pagination.maxRecords options with
    | Some maxRecords =>
        if len allRecords >? maxRecords
        then (slice_to maxRecords allRecords, true)
        else (allRecords, false)
    | None => (allRecords, false)
    end in
  let uniqueRecords := removeDuplicates finalRecords in
  {| records := uniqueRecords;
     pagesRetrieved := acc_totalPagesRetrieved acc;
     totalRecords := len uniqueRecords;
     hasMore := hasMore;
     hasError := acc_hasError acc;
     errorMessage := acc_errorMessage acc |}.

Definition fetchByDateRanges (fetchFn : FetchFunction) (startDate endDate : string)
           (baseParams : MoneySearchParams) (options : PaginationOptions)
  : M PaginationResult :=
  let ranges := splitDateRange startDate endDate 31 in
  match ranges with
  | [] =>
      ret {| records := [];
             pagesRetrieved := 0;
             totalRecords := 0;
             hasMore := false;
             hasError := false;
             errorMessage := None |}
  | _ :: _ =>
      acc <- collect_ranges fetchFn baseParams options ranges [] 0 ;;
      ret (finish_ranges options acc)
  end.

End Fetch.

(** ** Sorting and output formatting (src/utils/search-condition-evaluator.ts) *)

Inductive OutputField : Type :=
| Oid | Omode | Ouser_id | Odate | Ocategory_id | Ogenre_id | Oaccount_id
| Ofrom_account_id | Oto_account_id | Oamount | Oplace | Oname | Ocomment
| Oactive | Ocreated | Ocurrency_code | Ocategory | Ogenre | Oaccount.

#[global] Instance OutputField_eq_dec : EqDecision OutputField.
Proof. solve_decision. Defined.

Inductive OutputMode : Type := id_only | specified | full.

Module Output.
Record OutputControl : Type := mk {
  mode : option OutputMode;
  fields : option (list OutputField);
  maxCharsPerRecord : option Z;
  maxTotalChars : option Z;
  maxRecords : option Z
}.
End Output.
Abbreviation OutputControl := Output.OutputControl.

(** [number | Partial<ZaimMoney>] *)
Inductive FormattedRecord : Type :=
| IdOnly (id : jsval)
| Fields (record : ZaimMoney).

Module Formatted.
Record FormatOutputResult : Type := mk {
  records : list FormattedRecord;
  count : Z;
  truncated : bool;
  truncatedCount : Z
}.
End Formatted.
Abbreviation FormatOutputResult := Formatted.FormatOutputResult.

(** [value || ''] and [value ?? ''] on an optional string. *)
Definition or_empty (v : slot string) : string :=
  match v with
  | Present s => s
  | Absent | Undefined | Null => ""
  end.

Section Sort.
(** [a.localeCompare(b, locales)], the collation of the runtime. *)
Variable localeCompare : option string -> string -> string -> Z.
(** [[...records].sort(compareFn)], the sort of the runtime; it throws what
    [compareFn] throws. *)
Variable Array_sort :
  (ZaimMoney -> ZaimMoney -> Outcome Z) -> list ZaimMoney -> Outcome (list ZaimMoney).
(** The text of the [TypeError] for a property read on [undefined] or
    [null]. *)
Variable type_error_message : string.

(** The comparison function of [sortRecords]. *)
Definition compareRecords (a b : ZaimMoney) : Outcome Z :=
  match Money.date b with
  | Present b_date =>
      let dateCompare :=
        localeCompare None b_date (toString (read JStr (Money.date a))) in
      if negb (dateCompare =? 0) then Returned dateCompare
      else
        let placeA := or_empty (Money.place a) in
        let placeB := or_empty (Money.place b) in
        let placeCompare := localeCompare (Some "ja") placeA placeB in
        if negb (placeCompare =? 0) then Returned placeCompare
        else
          let nameA := or_empty (Money.name a) in
          let nameB := or_empty (Money.name b) in
          Returned (localeCompare (Some "ja") nameA nameB)
  | Absent | Undefined | Null => Threw (ErrorObject type_error_message)
  end.

Definition sortRecords (records : list ZaimMoney) : Outcome (list ZaimMoney) :=
  Array_sort compareRecords records.

Definition searchAndSort (records : list ZaimMoney) (criteria : SearchCriteria)
           (maxRecords : option Z) : Outcome (list ZaimMoney) :=
  let result := filterRecords records criteria in
  match sortRecords result with
  | Threw e => Threw e
  | Returned result =>
      Returned
        match maxRecords with
        | Some m => if m >? 0 then slice_to m result else result
        | None => result
        end
  end.

End Sort.

(** [pickFields]: the loop over [fields] copies [record[field]] for every
    listed field with [field in record]; the result has those keys and no
    other. *)
Definition pickFields (record : ZaimMoney) (fields : list OutputField) : ZaimMoney :=
  let pick {A} (field : OutputField) (v : slot A) : slot A :=
    if bool_decide (field ∈ fields) && has_key v then v else Absent in
  Money.mk
    (pick Oid (Money.id record)) (pick Omode (Money.mode record))
    (pick Ouser_id (Money.user_id record)) (pick Odate (Money.date record))
    (pick Ocategory_id (Money.category_id record))
    (pick Ogenre_id (Money.genre_id record))
    (pick Oaccount_id (Money.account_id record))
    (pick Oamount (Money.amount record))
    (pick Ocomment (Money.comment record)) (pick Oplace (Money.place record))
    (pick Oname (Money.name record)) (pick Oactive (Money.active record))
    (pick Ocreated (Money.created record))
    (pick Ocurrency_code (Money.currency_code record))
    (pick Ocategory (Money.category record)) (pick Ogenre (Money.genre record))
    (pick Oaccount (Money.account record))
    (pick Ofrom_account_id (Money.from_account_id record))
    (pick Oto_account_id (Money.to_account_id record)).

(** *** [JSON.stringify] *)

Definition quote : string := String (ascii_of_nat 34) EmptyString.

Definition hex_digit (n : nat) : ascii :=
  if (n <? 10)%nat then ascii_of_nat (48 + n) else ascii_of_nat (87 + n).

Definition json_escape_char (c : ascii) : string :=
  let n := nat_of_ascii c in
  if (n =? 34)%nat then String "\"%char quote
  else if (n =? 92)%nat then "\\"
  else if (n =? 8)%nat then "\b"
  else if (n =? 9)%nat then "\t"
  else if (n =? 10)%nat then "\n"
  else if (n =? 12)%nat then "\f"
  else if (n =? 13)%nat then "\r"
  else if (n <? 32)%nat
       then String "\"%char
              (String "u"%char
                 (String "0"%char
                    (String "0"%char
                       (String (hex_digit (n / 16))
                          (String (hex_digit (n mod 16)) EmptyString)))))
  else String c EmptyString.

Fixpoint json_escape (s : string) : string :=
  match s with
  | EmptyString => EmptyString
  | String c s' => (json_escape_char c ++ json_escape s')%string
  end.

Definition json_string (s : string) : string :=
  (quote ++ json_escape s ++ quote)%string.

(** One [key:value] member; a key that is absent or holds [undefined] is left
    out by [JSON.stringify]. *)
Definition json_member {A} (enc : A -> string) (key : string) (v : slot A)
  : option string :=
  match v with
  | Present a => Some (json_string key ++ ":" ++ enc a)%string
  | Null => Some (json_string key ++ ":null")%string
  | Absent | Undefined => None
  end.

(** The text of a record object.  The members are written in the order of
    the schema; [JSON.stringify] writes them in the order the object got its
    keys, which gives a text of the same length. *)
Definition json_object (r : ZaimMoney) : string :=
  let num := json_member (fun n : Z => pretty n) in
  let str := json_member json_string in
  let members :=
    [ num "id" (Money.id r);
      json_member (fun m => json_string (mode_name m)) "mode" (Money.mode r);
      num "user_id" (Money.user_id r); str "date" (Money.date r);
      num "category_id" (Money.category_id r);
      num "genre_id" (Money.genre_id r);
      num "account_id" (Money.account_id r); num "amount" (Money.amount r);
      str "comment" (Money.comment r); str "place" (Money.place r);
      str "name" (Money.name r); num "active" (Money.active r);
      str "created" (Money.created r);
      str "currency_code" (Money.currency_code r);
      str "category" (Money.category r); str "genre" (Money.genre r);
      str "account" (Money.account r);
      num "from_account_id" (Money.from_account_id r);
      num "to_account_id" (Money.to_account_id r) ] in
  ("{" ++ join "," (omap (fun m => m) members) ++ "}")%string.

(** [JSON.stringify(record)]; [None] is the value [undefined], which is what
    [JSON.stringify(undefined)] gives. *)
Definition JSON_stringify (record : FormattedRecord) : option string :=
  match record with
  | IdOnly JUndefined => None
  | IdOnly JNull => Some "null"
  | IdOnly (JNum n) => Some (pretty n)
  | IdOnly (JStr s) => Some (json_string s)
  | Fields r => Some (json_object r)
  end.

(** [s.slice(0, n)] on a string; a negative [n] counts from the end. *)
Definition str_slice_to (n : Z) (s : string) : string :=
  if n <? 0
  then String.substring 0 (Z.to_nat (Z.of_nat (String.length s) + n)) s
  else String.substring 0 (Z.to_nat n) s.

Section Format.
Variable type_error_message : string.

(** [stringifyWithLimit]; the result [None] is [undefined]. *)
Definition stringifyWithLimit (record : FormattedRecord) (maxChars : option Z)
  : Outcome (option string) :=
  let json := JSON_stringify record in
  match maxChars with
  | None => Returned json
  | Some maxChars =>
      match json with
      | None => Threw (ErrorObject type_error_message)       (* [json.length] *)
      | Some json =>
          if Z.of_nat (String.length json) <=? maxChars then Returned (Some json)
          else Returned (Some (str_slice_to (maxChars - 3) json ++ "...")%string)
      end
  end.

(** The record as [formatOutput] shapes it for [mode]. *)
Definition shape (mode : OutputMode) (fields : option (list OutputField))
           (record : ZaimMoney) : FormattedRecord :=
  match mode with
  | id_only => IdOnly (record_id record)
  | specified =>
      match fields with
      | Some (f :: fs) => Fields (pickFields record (f :: fs))
      | Some [] | None => Fields record
      end
  | full => Fields record
  end.

(** The [for (const record of records)] loop of [formatOutput]; [total] is
    [records.length]. *)
Fixpoint format_loop (mode : OutputMode) (fields : option (list OutputField))
         (maxCharsPerRecord maxTotalChars : option Z) (total : Z)
         (rest : list ZaimMoney) (formattedRecords : list FormattedRecord)
         (totalChars : Z) : Outcome FormatOutputResult :=
  match rest with
  | [] =>
      Returned (Formatted.mk formattedRecords (len formattedRecords) false 0)
  | record :: rest' =>
      let formattedRecord := shape mode fields record in
      match stringifyWithLimit formattedRecord maxCharsPerRecord with
      | Threw e => Threw e
      | Returned None => Threw (ErrorObject type_error_message)  (* [recordStr.length] *)
      | Returned (Some recordStr) =>
          let recordChars := Z.of_nat (String.length recordStr) in
          if exceeded maxTotalChars (totalChars + recordChars)
          then Returned (Formatted.mk formattedRecords (len formattedRecords)
                                      true (total - len formattedRecords))
          else format_loop mode fields maxCharsPerRecord maxTotalChars total
                           rest' (formattedRecords ++ [formattedRecord])
                           (totalChars + recordChars)
      end
  end.

Definition formatOutput (records : list ZaimMoney)
           (outputControl : option OutputControl) : Outcome FormatOutputResult :=
  let mode := default full (outputControl ≫= Output.mode) in
  let fields := outputControl ≫= Output.fields in
  let maxCharsPerRecord := outputControl ≫= Output.maxCharsPerRecord in
  let maxTotalChars := outputControl ≫= Output.maxTotalChars in
  format_loop mode fields maxCharsPerRecord maxTotalChars (len records)
              records [] 0.

End Format.

(** ** Bulk mutation tools (src/tools/advanced) *)

Inductive StringUpdateMode : Type := replace | partial.

Inductive StringUpdate : Type :=
  mkStringUpdate (mode : StringUpdateMode)
                 (newValue searchPattern replaceWith : option string).

Module Updates.
(** [UpdateFields]; [None] is a key that is absent or [undefined]. *)
Record UpdateFields : Type := mk {
  category_id : option Z;
  genre_id : option Z;
  date : option string;
  amount : option Z;
  place : option StringUpdate;
  name : option StringUpdate;
  account_id : option Z;
  from_account_id : option Z;
  to_account_id : option Z;
  comment : option StringUpdate
}.

(** The object [{}]. *)
Definition empty : UpdateFields :=
  mk None None None None None None None None None None.
End Updates.
Abbreviation UpdateFields := Updates.UpdateFields.

Record Stats : Type := {
  targetCount : Z;
  successCount : Z;
  failureCount : Z;
  stats_dryRun : bool
}.

(** [BulkUpdateToolOutput] and [BulkDeleteToolOutput], which differ in the
    type [D] of the entries of [results]. *)
Record ToolOutput (D : Type) : Type := {
  success : bool;
  message : string;
  results : list D;
  stats : Stats
}.
Arguments success {D} _.
Arguments message {D} _.
Arguments results {D} _.
Arguments stats {D} _.

Module UpdateDetail.
Record UpdateResultDetail : Type := mk {
  id : jsval;
  success : bool;
  error : option string;
  before : option (gmap string jsval);
  after : option (gmap string jsval)
}.
End UpdateDetail.
Abbreviation UpdateResultDetail := UpdateDetail.UpdateResultDetail.

Record Summary : Type := {
  summary_date : jsval;
  summary_amount : jsval;
  summary_place : jsval;
  summary_name : jsval
}.

Module DeleteDetail.
Record DeleteResultDetail : Type := mk {
  id : jsval;
  mode : jsval;
  success : bool;
  error : option string;
  summary : option Summary
}.
End DeleteDetail.
Abbreviation DeleteResultDetail := DeleteDetail.DeleteResultDetail.

Module UpdateInput.
Record BulkUpdateToolInput : Type := mk {
  criteria : SearchCriteria;
  dateRange : DateRange;
  updates : UpdateFields;
  expectedCount : Z;
  dryRun : bool
}.
End UpdateInput.
Abbreviation BulkUpdateToolInput := UpdateInput.BulkUpdateToolInput.

Module DeleteInput.
Record BulkDeleteToolInput : Type := mk {
  criteria : SearchCriteria;
  dateRange : DateRange;
  expectedCount : Z;
  dryRun : bool
}.
End DeleteInput.
Abbreviation BulkDeleteToolInput := DeleteInput.BulkDeleteToolInput.

(** *** Validation *)

Fixpoint findFieldInCriteria (criteria : SearchCriteria) (fieldName : string)
         {struct criteria} : option SearchCondition :=
  match criteria with
  | Composite (mkComposite _ conditions) =>
      (fix loop (conds : list SearchCriteria) : option SearchCondition :=
         match conds with
         | [] => None
         | cond :: rest =>
             match findFieldInCriteria cond fieldName with
             | Some found => Some found
             | None => loop rest
             end
         end) conditions
  | Single condition =>
      if bool_decide (condition_field condition = Some fieldName)
      then Some condition
      else None
  end.

(** The text pushed on [errors] for an updated field without a condition. *)
Definition missing_field_message (field : string) : string :=
  ("更新フィールド「" ++ field ++ "」が検索条件に含まれていません。検索条件に「"
     ++ field ++ "」の条件を追加してください。")%string.

Definition numericFields : list string :=
  ["category_id"; "genre_id"; "amount"; "account_id"; "from_account_id";
   "to_account_id"].

Definition stringFields : list string := ["place"; "name"; "comment"].

(** The keys of [updates] that hold a value, in the order of the schema. *)
Definition defined_keys (updates : UpdateFields) : list string :=
  let key {A} (name : string) (v : option A) : list string :=
    match v with Some _ => [name] | None => [] end in
  key "category_id" (Updates.category_id updates)
  ++ key "genre_id" (Updates.genre_id updates)
  ++ key "date" (Updates.date updates)
  ++ key "amount" (Updates.amount updates)
  ++ key "place" (Updates.place updates)
  ++ key "name" (Updates.name updates)
  ++ key "account_id" (Updates.account_id updates)
  ++ key "from_account_id" (Updates.from_account_id updates)
  ++ key "to_account_id" (Updates.to_account_id updates)
  ++ key "comment" (Updates.comment updates).

(** [updates[field] !== undefined] *)
Definition update_defined (updates : UpdateFields) (field : string) : bool :=
  bool_decide (field ∈ defined_keys updates).

(** One turn of the loops of [validateUpdateFieldsInCriteria]: what it pushes
    on [errors]. *)
Definition check_field (criteria : SearchCriteria) (updates : UpdateFields)
           (field : string) : list string :=
  if update_defined updates field then
    match findFieldInCriteria criteria field with
    | Some _ => []
    | None => [missing_field_message field]
    end
  else [].

Definition validateUpdateFieldsInCriteria (criteria : SearchCriteria)
           (updates : UpdateFields) : list string :=
  flat_map (check_field criteria updates) numericFields
  ++ check_field criteria updates "date"
  ++ flat_map (check_field criteria updates) stringFields.

Fixpoint isEmptyCriteria (criteria : SearchCriteria) : bool :=
  match criteria with
  | Composite (mkComposite _ conditions) =>
      match conditions with
      | [] => true
      | _ :: _ => forallb isEmptyCriteria conditions
      end
  | Single condition =>
      if negb (bool_decide (is_Some (condition_field condition)))
         || negb (has_operator condition)
      then true
      else false
  end.

(** *** Computing an update *)

Definition applyStringUpdate (currentValue : slot string) (update : StringUpdate)
  : string :=
  let '(mkStringUpdate mode newValue searchPattern replaceWith) := update in
  match mode, searchPattern with
  | replace, _ => default "" newValue
  | partial, Some pattern =>
      let current := or_empty currentValue in
      let replaceWith := default "" replaceWith in
      join replaceWith (split current pattern)
  | partial, None => or_empty currentValue
  end.

Record UpdateBody : Type := {
  body : gmap string jsval;
  before : gmap string jsval;
  after : gmap string jsval
}.

(** [before[key] = old; after[key] = new] *)
Definition record_change (key : string) (old new : jsval) (u : UpdateBody)
  : UpdateBody :=
  {| body := body u;
     before := <[key := old]> (before u);
     after := <[key := new]> (after u) |}.

(** [body[key] = value] *)
Definition send (key : string) (value : jsval) (u : UpdateBody) : UpdateBody :=
  {| body := <[key := value]> (body u); before := before u; after := after u |}.

(** [if (v !== undefined) { ... }] *)
Definition when_defined {A} (v : option A) (f : A -> UpdateBody -> UpdateBody)
           (u : UpdateBody) : UpdateBody :=
  match v with
  | Some a => f a u
  | None => u
  end.

Definition calculateUpdateBody (record : ZaimMoney) (updates : UpdateFields)
  : UpdateBody :=
  let number_update (key : string) (old : slot Z) (v : Z) (u : UpdateBody) :=
    send key (JNum v) (record_change key (read JNum old) (JNum v) u) in
  let string_update (key : string) (old : slot string) (v : StringUpdate)
                    (u : UpdateBody) :=
    let newValue := applyStringUpdate old v in
    send key (JStr newValue) (record_change key (read JStr old) (JStr newValue) u) in
  let u0 := {| body := {["mapping" := JNum 1]}; before := ∅; after := ∅ |} in
  let u1 := when_defined (Updates.category_id updates)
              (number_update "category_id" (Money.category_id record)) u0 in
  let u2 := when_defined (Updates.genre_id updates)
              (number_update "genre_id" (Money.genre_id record)) u1 in
  let u3 := when_defined (Updates.amount updates)
              (number_update "amount" (Money.amount record)) u2 in
  let u4 := when_defined (Updates.account_id updates)
              (fun v u =>
                 let u' :=
                   record_change "account_id"
                     (coalesce (read JNum (Money.from_account_id record))
                               (read JNum (Money.to_account_id record)))
                     (JNum v) u in
                 match Money.mode record with
                 | Present payment => send "from_account_id" (JNum v) u'
                 | Present income => send "to_account_id" (JNum v) u'
                 | _ => u'
                 end) u3 in
  let u5 := when_defined (Updates.from_account_id updates)
              (number_update "from_account_id" (Money.from_account_id record)) u4 in
  let u6 := when_defined (Updates.to_account_id updates)
              (number_update "to_account_id" (Money.to_account_id record)) u5 in
  let u7 := when_defined (Updates.date updates)
              (fun v u =>
                 send "date" (JStr v)
                      (record_change "date" (read JStr (Money.date record))
                                     (JStr v) u)) u6 in
  let u8 := when_defined (Updates.place updates)
              (string_update "place" (Money.place record)) u7 in
  let u9 := when_defined (Updates.name updates)
              (string_update "name" (Money.name record)) u8 in
  when_defined (Updates.comment updates)
    (string_update "comment" (Money.comment record)) u9.

(** *** The tools *)

(** The result of every failure branch: no entries, no successes. *)
Definition failed {D} (text : string) (target : Z) (dryRun : bool) : ToolOutput D :=
  {| success := false;
     message := text;
     results := [];
     stats := {| targetCount := target; successCount := 0; failureCount := 0;
                 stats_dryRun := dryRun |} |}.

(** [`${paginationResult.errorMessage}`] *)
Definition show_errorMessage (m : option string) : string :=
  match m with
  | Some s => s
  | None => "undefined"
  end.

(** [`/v2/home/money/${record.mode}/${record.id}`] *)
Definition record_mode (record : ZaimMoney) : jsval :=
  read (fun m => JStr (mode_name m)) (Money.mode record).

Definition money_endpoint (record : ZaimMoney) : string :=
  ("/v2/home/money/" ++ toString (record_mode record) ++ "/"
     ++ toString (record_id record))%string.

(** The options both bulk tools pass to [fetchByDateRanges]. *)
Definition bulk_fetch_options : PaginationOptions :=
  Pagination.mk None None None None (Some 200).

Section Tools.
Variable remote : Remote.
Variable zod_message : PaginationOptions -> string.

(** The [for (const record of targetRecords)] loop of [bulkUpdateTool]. *)
Fixpoint update_loop (updates : UpdateFields) (targetRecords : list ZaimMoney)
         (results : list UpdateResultDetail) (successCount failureCount : Z)
  : M (list UpdateResultDetail * Z * Z) :=
  match targetRecords with
  | [] => ret (results, successCount, failureCount)
  | record :: rest =>
      step <-
        try_catch
          (let u := calculateUpdateBody record updates in
           let endpoint := money_endpoint record in
           _ <- perform remote (Put endpoint (body u)) ;;
           ret (results
                  ++ [UpdateDetail.mk (record_id record) true None
                                      (Some (before u)) (Some (after u))],
                successCount + 1, failureCount))
          (fun error =>
             let errorMessage := message_or "不明なエラー" error in
             ret (results
                    ++ [UpdateDetail.mk (record_id record) false
                                        (Some errorMessage) None None],
                  successCount, failureCount + 1)) ;;
      let '(results', successCount', failureCount') := step in
      update_loop updates rest results' successCount' failureCount'
  end.

Definition bulkUpdateTool (input : BulkUpdateToolInput)
  : M (ToolOutput UpdateResultDetail) :=
  let dryRun := UpdateInput.dryRun input in
  try_catch
    (let validationErrors :=
       validateUpdateFieldsInCriteria (UpdateInput.criteria input)
                                      (UpdateInput.updates input) in
     if len validationErrors >? 0 then
       ret (failed ("整合性エラー: " ++ join " " validationErrors)%string 0 dryRun)
     else
       paginationResult <-
         fetchByDateRanges zod_message (fetchMoneyRecords remote)
           (range_start (UpdateInput.dateRange input))
           (range_end (UpdateInput.dateRange input))
           SearchParams.empty bulk_fetch_options ;;
       if hasError paginationResult then
         ret (failed ("データ取得エラー: "
                        ++ show_errorMessage (errorMessage paginationResult))%string
                     0 dryRun)
       else
         let targetRecords :=
           filterRecords (records paginationResult) (UpdateInput.criteria input) in
         let actualCount := len targetRecords in
         if negb (actualCount =? UpdateInput.expectedCount input) then
           ret (failed ("件数不一致エラー: 期待件数="
                          ++ pretty (UpdateInput.expectedCount input)
                          ++ "件、実際の対象件数=" ++ pretty actualCount
                          ++ "件。事前にzaim_advanced_searchで対象を確認してください。")%string
                       actualCount dryRun)
         else if actualCount =? 0 then
           ret {| success := true;
                  message := "対象レコードが見つかりませんでした。";
                  results := [];
                  stats := {| targetCount := 0; successCount := 0;
                              failureCount := 0; stats_dryRun := dryRun |} |}
         else if dryRun then
           let previewResults :=
             map (fun record =>
                    let u := calculateUpdateBody record (UpdateInput.updates input) in
                    UpdateDetail.mk (record_id record) true None
                                    (Some (before u)) (Some (after u)))
                 targetRecords in
           ret {| success := true;
                  message :=
                    ("[ドライラン] " ++ pretty actualCount
                       ++ "件のレコードが更新対象です。実際の更新は行われていません。")%string;
                  results := previewResults;
                  stats := {| targetCount := actualCount;
                              successCount := actualCount;
                              failureCount := 0; stats_dryRun := true |} |}
         else
           _ <- createZaimApiClient remote ;;
           done <- update_loop (UpdateInput.updates input) targetRecords [] 0 0 ;;
           let '(results, successCount, failureCount) := done in
           let message :=
             if failureCount =? 0
             then (pretty successCount ++ "件のレコードを更新しました。")%string
             else (pretty successCount ++ "件の更新に成功、" ++ pretty failureCount
                     ++ "件の更新に失敗しました。")%string in
           ret {| success := failureCount =? 0;
                  message := message;
                  results := results;
                  stats := {| targetCount := actualCount;
                              successCount := successCount;
                              failureCount := failureCount;
                              stats_dryRun := false |} |})
    (fun error =>
       let errorMessage := message_or "不明なエラー" error in
       ret (failed ("一括更新エラー: " ++ errorMessage)%string 0 dryRun)).

(** The [summary] of a record in the results of [bulkDeleteTool]. *)
Definition summary_of (record : ZaimMoney) : Summary :=
  {| summary_date := read JStr (Money.date record);
     summary_amount := read JNum (Money.amount record);
     summary_place := read JStr (Money.place record);
     summary_name := read JStr (Money.name record) |}.

(** The [for (const record of targetRecords)] loop of [bulkDeleteTool]. *)
Fixpoint delete_loop (targetRecords : list ZaimMoney)
         (results : list DeleteResultDetail) (successCount failureCount : Z)
  : M (list DeleteResultDetail * Z * Z) :=
  match targetRecords with
  | [] => ret (results, successCount, failureCount)
  | record :: rest =>
      step <-
        try_catch
          (let endpoint := money_endpoint record in
           _ <- perform remote (Delete endpoint) ;;
           ret (results
                  ++ [DeleteDetail.mk (record_id record) (record_mode record) true
                                      None (Some (summary_of record))],
                successCount + 1, failureCount))
          (fun error =>
             let errorMessage := message_or "不明なエラー" error in
             ret (results
                    ++ [DeleteDetail.mk (record_id record) (record_mode record)
                                        false (Some errorMessage) None],
                  successCount, failureCount + 1)) ;;
      let '(results', successCount', failureCount') := step in
      delete_loop rest results' successCount' failureCount'
  end.

Definition bulkDeleteTool (input : BulkDeleteToolInput)
  : M (ToolOutput DeleteResultDetail) :=
  let dryRun := DeleteInput.dryRun input in
  try_catch
    (if isEmptyCriteria (DeleteInput.criteria input) then
       ret (failed "安全エラー: 検索条件が空です。条件なしでの全削除は許可されていません。検索条件を指定してください。"
                   0 dryRun)
     else
       paginationResult <-
         fetchByDateRanges zod_message (fetchMoneyRecords remote)
           (range_start (DeleteInput.dateRange input))
           (range_end (DeleteInput.dateRange input))
           SearchParams.empty bulk_fetch_options ;;
       if hasError paginationResult then
         ret (failed ("データ取得エラー: "
                        ++ show_errorMessage (errorMessage paginationResult))%string
                     0 dryRun)
       else
         let targetRecords :=
           filterRecords (records paginationResult) (DeleteInput.criteria input) in
         let actualCount := len targetRecords in
         if negb (actualCount =? DeleteInput.expectedCount input) then
           ret (failed ("件数不一致エラー: 期待件数="
                          ++ pretty (DeleteInput.expectedCount input)
                          ++ "件、実際の対象件数=" ++ pretty actualCount
                          ++ "件。事前にzaim_advanced_searchで対象を確認してください。")%string
                       actualCount dryRun)
         else if actualCount =? 0 then
           ret {| success := true;
                  message := "対象レコードが見つかりませんでした。";
                  results := [];
                  stats := {| targetCount := 0; successCount := 0;
                              failureCount := 0; stats_dryRun := dryRun |} |}
         else if dryRun then
           let previewResults :=
             map (fun record =>
                    DeleteDetail.mk (record_id record) (record_mode record) true
                                    None (Some (summary_of record)))
                 targetRecords in
           ret {| success := true;
                  message :=
                    ("[ドライラン] " ++ pretty actualCount
                       ++ "件のレコードが削除対象です。実際の削除は行われていません。")%string;
                  results := previewResults;
                  stats := {| targetCount := actualCount;
                              successCount := actualCount;
                              failureCount := 0; stats_dryRun := true |} |}
         else
           _ <- createZaimApiClient remote ;;
           done <- delete_loop targetRecords [] 0 0 ;;
           let '(results, successCount, failureCount) := done in
           let message :=
             if failureCount =? 0
             then (pretty successCount ++ "件のレコードを削除しました。")%string
             else (pretty successCount ++ "件の削除に成功、" ++ pretty failureCount
                     ++ "件の削除に失敗しました。")%string in
           ret {| success := failureCount =? 0;
                  message := message;
                  results := results;
                  stats := {| targetCount := actualCount;
                              successCount := successCount;
                              failureCount := failureCount;
                              stats_dryRun := false |} |})
    (fun error =>
       let errorMessage := message_or "不明なエラー" error in
       ret (failed ("一括削除エラー: " ++ errorMessage)%string 0 dryRun)).

End Tools.

(** ** The search tool (src/tools/advanced/advanced-search-tool.ts) *)

Module SearchInput.
Record AdvancedSearchToolInput : Type := mk {
  criteria : option SearchCriteria;
  dateRange : DateRange;
  output : option OutputControl;
  limit : option Z
}.
End SearchInput.
Abbreviation AdvancedSearchToolInput := SearchInput.AdvancedSearchToolInput.

Record SearchMeta : Type := {
  meta_pagesRetrieved : Z;
  totalFetched : Z;
  matchedCount : Z;
  outputCount : Z
}.

Module SearchOutput.
Record AdvancedSearchToolOutput : Type := mk {
  records : list FormattedRecord;
  count : Z;
  truncated : bool;
  truncatedCount : Z;
  success : bool;
  message : string;
  meta : SearchMeta
}.
End SearchOutput.
Abbreviation AdvancedSearchToolOutput := SearchOutput.AdvancedSearchToolOutput.

(** The condition the tool uses when the request has no criteria:
    [{ field: 'date', operator: 'onOrAfter', value: '1900-01-01' }]. *)
Definition match_all : SearchCriteria :=
  Single (OfDate (mkDateCondition (Some DOnOrAfter) (Some "1900-01-01") None None)).

(** A computation without remote calls, run inside [M]. *)
Definition lift {A} (o : Outcome A) : M A :=
  match o with
  | Returned a => ret a
  | Threw e => throw e
  end.

Section SearchTool.
Variable remote : Remote.
Variable zod_message : PaginationOptions -> string.
Variable localeCompare : option string -> string -> string -> Z.
Variable Array_sort :
  (ZaimMoney -> ZaimMoney -> Outcome Z) -> list ZaimMoney -> Outcome (list ZaimMoney).
Variable type_error_message : string.

Definition advancedSearchTool (input : AdvancedSearchToolInput)
  : M AdvancedSearchToolOutput :=
  try_catch
    (paginationResult <-
       fetchByDateRanges zod_message (fetchMoneyRecords remote)
         (range_start (SearchInput.dateRange input))
         (range_end (SearchInput.dateRange input))
         SearchParams.empty
         (Pagination.mk None None (SearchInput.limit input) None (Some 200)) ;;
     if hasError paginationResult then
       ret (SearchOutput.mk [] 0 false 0 false
              ("データ取得エラー: "
                 ++ show_errorMessage (errorMessage paginationResult))%string
              {| meta_pagesRetrieved := pagesRetrieved paginationResult;
                 totalFetched := totalRecords paginationResult;
                 matchedCount := 0;
                 outputCount := 0 |})
     else
       let totalFetched := totalRecords paginationResult in
       let criteria := default match_all (SearchInput.criteria input) in
       records <-
         lift (searchAndSort localeCompare Array_sort type_error_message
                 (records paginationResult) criteria
                 (SearchInput.output input ≫= Output.maxRecords)) ;;
       let matchedCount := len records in
       outputResult <-
         lift (formatOutput type_error_message records (SearchInput.output input)) ;;
       ret (SearchOutput.mk
              (Formatted.records outputResult) (Formatted.count outputResult)
              (Formatted.truncated outputResult)
              (Formatted.truncatedCount outputResult) true
              (pretty (Formatted.count outputResult) ++ "件の記録を取得しました（全"
                 ++ pretty matchedCount ++ "件中）")%string
              {| meta_pagesRetrieved := pagesRetrieved paginationResult;
                 totalFetched := totalFetched;
                 matchedCount := matchedCount;
                 outputCount := Formatted.count outputResult |}))
    (fun error =>
       let errorMessage := message_or "不明なエラー" error in
       ret (SearchOutput.mk [] 0 false 0 false
              ("検索エラー: " ++ errorMessage)%string
              {| meta_pagesRetrieved := 0; totalFetched := 0;
                 matchedCount := 0; outputCount := 0 |})).

End SearchTool.

(* ===================================================================== *)
(** * Part II.  Vocabulary of the properties                              *)
(* ===================================================================== *)

(** The field of a predicate is missing on a record: the key is absent, or
    holds [null] or [undefined]. *)
Definition field_missing (record : ZaimMoney) (condition : SearchCondition) : bool :=
  match condition with
  | OfString (mkStringCondition f _ _ _) => nullish (string_field record f)
  | OfNumber (mkNumberCondition f _ _ _ _) => nullish (number_field record f)
  | OfDate _ => nullish (Money.date record)
  | OfMode _ => nullish (Money.mode record)
  | Fieldless => false
  end.

(** A tree made of composites only: every leaf is a composite with an empty
    list.  [{AND, []}] and [{AND, [{OR, []}]}] are such trees. *)
Fixpoint hollow (criteria : SearchCriteria) : bool :=
  match criteria with
  | Composite (mkComposite _ conditions) => forallb hollow conditions
  | Single _ => false
  end.

(** The criteria tree holds a predicate on the field called [fieldName]. *)
Inductive mentions (fieldName : string) : SearchCriteria -> Prop :=
| mentions_single condition :
    condition_field condition = Some fieldName ->
    mentions fieldName (Single condition)
| mentions_composite operator conditions cond :
    cond ∈ conditions ->
    mentions fieldName cond ->
    mentions fieldName (Composite (mkComposite operator conditions)).

(** The value of a computation that returned. *)
Definition returned {A} (run : Outcome A * list Call) : option A :=
  match run with
  | (Returned a, _) => Some a
  | (Threw _, _) => None
  end.

(** The calls that write to the remote service. *)
Definition is_mutation (c : Call) : bool :=
  match c with
  | Put _ _ | Delete _ => true
  | Get _ _ => false
  end.

Definition mutations (log : list Call) : list Call := List.filter is_mutation log.

(** [t] occurs in [s]. *)
Definition occurs_in (t s : string) : Prop :=
  exists pre post : string, s = (pre ++ t ++ post)%string.



(** [log'] extends [log] by calls that are not mutations. *)
Definition extended_by_reads (log log' : list Call) : Prop :=
  exists calls, log' = log ++ calls /\ Forall (fun c => is_mutation c = false) calls.

(** A page fetcher that issues no mutation. *)
Definition reads_only (fetchFn : FetchFunction) : Prop :=
  forall params log outcome log',
    fetchFn params log = (outcome, log') -> extended_by_reads log log'.

(** The messages of the two safety checks. *)
Definition empty_criteria_message : string :=
  "安全エラー: 検索条件が空です。条件なしでの全削除は許可されていません。検索条件を指定してください。".

Definition count_mismatch_message (expectedCount actualCount : Z) : string :=
  ("件数不一致エラー: 期待件数=" ++ pretty expectedCount
     ++ "件、実際の対象件数=" ++ pretty actualCount
     ++ "件。事前にzaim_advanced_searchで対象を確認してください。")%string.




(** ** Sample data, after the mocks of the test suites *)

(** A payment with the fields the mocks give their records. *)
Definition sample_record (id : Z) (date : string) (amount : Z) (place : string)
  : ZaimMoney :=
  Money.mk (Present id) (Present payment) Absent (Present date)
           (Present 101) (Present 201) Absent (Present amount)
           Absent (Present place) Absent Absent Absent (Present "JPY")
           Absent Absent Absent (Present 1) (Present 0).

(** A service that answers every [get] with the same list of records and
    accepts every write, as [mockResolvedValue] makes the mocked client do. *)
Definition sample_remote (money : list ZaimMoney) : Remote :=
  {| client_failure := None;
     respond := fun _ call =>
                  match call with
                  | Get _ _ => Returned (MoneyResponse money)
                  | Put _ _ | Delete _ => Returned OtherResponse
                  end |}.

Definition sample_zod_message (options : PaginationOptions) : string :=
  "Invalid pagination options".

Definition january : DateRange :=
  {| range_start := "2024-01-01"; range_end := "2024-01-31" |}.

Definition two_shops : list ZaimMoney :=
  [sample_record 1 "2024-01-15" 1000 "Super A";
   sample_record 2 "2024-01-16" 2000 "Super B"].




(** [{ maxRecords }] *)
Definition at_most (maxRecords : Z) : PaginationOptions :=
  Pagination.mk None None (Some maxRecords) None None.

Definition shop (id : Z) : ZaimMoney := sample_record id "2024-01-31" 500 "Shop".

(** A collation and a sort to run [sortRecords] with: the order of the code
    units, and an insertion sort that calls the comparison function. *)
Definition sample_localeCompare (locales : option string) (a b : string) : Z :=
  match String.compare a b with
  | Lt => -1
  | Eq => 0
  | Gt => 1
  end.

Fixpoint sample_insert (compareFn : ZaimMoney -> ZaimMoney -> Outcome Z)
         (x : ZaimMoney) (sorted : list ZaimMoney) : Outcome (list ZaimMoney) :=
  match sorted with
  | [] => Returned [x]
  | y :: ys =>
      match compareFn x y with
      | Threw e => Threw e
      | Returned c =>
          if c <=? 0 then Returned (x :: y :: ys)
          else match sample_insert compareFn x ys with
               | Returned l => Returned (y :: l)
               | Threw e => Threw e
               end
      end
  end.

Fixpoint sample_sort (compareFn : ZaimMoney -> ZaimMoney -> Outcome Z)
         (l : list ZaimMoney) : Outcome (list ZaimMoney) :=
  match l with
  | [] => Returned []
  | x :: xs =>
      match sample_sort compareFn xs with
      | Returned sorted => sample_insert compareFn x sorted
      | Threw e => Threw e
      end
  end.

Definition sample_type_error : string :=
  "Cannot read properties of undefined".

(** [{ maxRecords }] as an output control. *)
Definition output_at_most (maxRecords : Z) : OutputControl :=
  Output.mk None None None None (Some maxRecords).

(** A service that answers its n-th call with the n-th entry of a script, as
    a chain of [mockResolvedValueOnce] and [mockRejectedValueOnce] does; calls
    past the end of the script get an empty list. *)
Definition scripted_remote (script : list (Outcome Response)) : Remote :=
  {| client_failure := None;
     respond := fun log _ =>
                  default (Returned (MoneyResponse []))
                          (script !! List.length log) |}.

(** The record of the evaluator's test suite. *)
Definition mockRecord : ZaimMoney :=
  Money.mk (Present 1) (Present payment) Absent (Present "2024-01-15")
           (Present 101) (Present 201) Absent (Present 1500)
           (Present "テストコメント") (Present "スーパーマーケット")
           (Present "食料品") (Present 1)
           (Present "2024-01-15T10:00:00+09:00") (Present "JPY")
           Absent Absent Absent (Present 1) (Present 0).

(** [{field: 'place', operator: 'contains', value}] *)
Definition place_contains (value : string) : SearchCriteria :=
  Single (OfString (mkStringCondition Fplace (Some SContains) value None)).

(** The one [get] that a fetch over [january] issues. *)
Definition january_page : Call :=
  Get "/v2/home/money"
      {| q_start_date := Some "2024-01-01"; q_end_date := Some "2024-01-31";
         q_page := Some 1; q_limit := Some 100 |}.

(* ===================================================================== *)
(** * Part III.  Properties                                               *)
(* ===================================================================== *)

(** ** Induction on criteria trees *)

Lemma SearchCriteria_tree_ind (P : SearchCriteria -> Prop) :
  (forall condition, P (Single condition)) ->
  (forall operator conditions,
      Forall P conditions -> P (Composite (mkComposite operator conditions))) ->
  forall criteria, P criteria.
Proof.
  intros Hsingle Hcomposite.
  fix IH 1.
  intros [condition | [operator conditions]].
  - apply Hsingle.
  - apply Hcomposite.
    induction conditions as [| cond rest IHrest]; constructor.
    + apply IH.
    + exact IHrest.
Qed.

(** ** The condition evaluator *)

Lemma evaluateCriteria_composite record operator conditions :
  evaluateCriteria record (Composite (mkComposite operator conditions)) =
  match conditions with
  | [] => true
  | _ :: _ =>
      match operator with
      | AND => forallb (evaluateCriteria record) conditions
      | OR => existsb (evaluateCriteria record) conditions
      end
  end.
Proof.
  destruct conditions as [| c cs]; [reflexivity |].
  destruct operator; reflexivity.
Qed.

(** C8.  For every record and for both logical operators, a composite
    condition with an empty list of conditions evaluates to [true]. *)
Theorem empty_composite_is_true (record : ZaimMoney) (operator : LogicalOperator) :
  evaluateCompositeCondition record (mkComposite operator []) = true
  /\ evaluateCriteria record (Composite (mkComposite operator [])) = true.
Proof. split; reflexivity. Qed.

(** C9.  A predicate on a field that the record lacks (absent, [null] or
    [undefined]) evaluates to [false], whatever its operator and operands;
    evaluation is a total function, so no error is raised. *)
Theorem missing_field_is_false (record : ZaimMoney) (condition : SearchCondition) :
  field_missing record condition = true ->
  evaluateCondition record condition = false
  /\ evaluateCriteria record (Single condition) = false.
Proof.
  intros Hmissing.
  assert (Heval : evaluateCondition record condition = false).
  { destruct condition as [[f o v cs] | [f o v lo hi] | [o v s e] | [o v] |];
      simpl in *.
    - destruct (string_field record f); [reflexivity .. | discriminate].
    - destruct (number_field record f); [reflexivity .. | discriminate].
    - destruct (Money.date record); [reflexivity .. | discriminate].
    - destruct (Money.mode record); [reflexivity .. | discriminate].
    - discriminate. }
  split; [exact Heval | exact Heval].
Qed.

Example missing_field_is_false_witness :
  evaluateCondition Money.empty
    (OfString (mkStringCondition Fplace (Some SContains) "X" None)) = false
  /\ evaluateCriteria Money.empty
       (Single (OfString (mkStringCondition Fplace (Some SContains) "X" None)))
     = false.
Proof. apply missing_field_is_false. reflexivity. Defined.

Lemma forallb_Forall_impl {A} (p q : A -> bool) (l : list A) :
  Forall (fun x => p x = true -> q x = true) l ->
  forallb p l = true -> forallb q l = true.
Proof.
  induction 1 as [| x xs Hx _ IH]; simpl; [reflexivity |].
  intros [Hpx Hpxs]%andb_prop.
  rewrite (Hx Hpx). simpl. exact (IH Hpxs).
Qed.

Lemma hollow_isEmptyCriteria (criteria : SearchCriteria) :
  hollow criteria = true -> isEmptyCriteria criteria = true.
Proof.
  induction criteria as [condition | operator conditions IH]
    using SearchCriteria_tree_ind.
  - discriminate.
  - intros Hhollow.
    change (match conditions with
            | [] => true
            | _ :: _ => forallb isEmptyCriteria conditions
            end = true).
    destruct conditions as [| cond rest]; [reflexivity |].
    exact (forallb_Forall_impl hollow isEmptyCriteria _ IH Hhollow).
Qed.

Lemma hollow_evaluates_true (record : ZaimMoney) (criteria : SearchCriteria) :
  hollow criteria = true -> evaluateCriteria record criteria = true.
Proof.
  induction criteria as [condition | operator conditions IH]
    using SearchCriteria_tree_ind.
  - discriminate.
  - intros Hhollow. rewrite evaluateCriteria_composite.
    destruct conditions as [| cond rest]; [reflexivity |].
    assert (Hall : forallb (evaluateCriteria record) (cond :: rest) = true)
      by exact (forallb_Forall_impl hollow (evaluateCriteria record) _ IH Hhollow).
    destruct operator; [exact Hall |].
    simpl in Hall |- *. apply andb_prop in Hall as [-> _]. reflexivity.
Qed.

(** ** The bulk tools: requests rejected before any remote call *)

Lemma bulkDeleteTool_empty remote zod_message (input : BulkDeleteToolInput)
      (log : list Call) :
  isEmptyCriteria (DeleteInput.criteria input) = true ->
  bulkDeleteTool remote zod_message input log =
  (Returned (failed empty_criteria_message 0 (DeleteInput.dryRun input)), log).
Proof.
  intros Hempty. unfold bulkDeleteTool, try_catch. rewrite Hempty. reflexivity.
Qed.

(** C2.  A bulk-delete request whose criteria is an empty composite, or a
    single predicate without its [field] or without its [operator], gets the
    safety failure; the log of remote calls is left as it was (no page is
    fetched, nothing is deleted), whatever [dateRange], [expectedCount] and
    [dryRun] are. *)
Theorem bulk_delete_rejects_empty_criteria
        remote zod_message (input : BulkDeleteToolInput) (log : list Call) :
  (exists operator,
      DeleteInput.criteria input = Composite (mkComposite operator []))
  \/ (exists condition,
         DeleteInput.criteria input = Single condition
         /\ (condition_field condition = None \/ has_operator condition = false)) ->
  bulkDeleteTool remote zod_message input log =
  (Returned
     {| success := false;
        message := empty_criteria_message;
        results := [];
        stats := {| targetCount := 0; successCount := 0; failureCount := 0;
                    stats_dryRun := DeleteInput.dryRun input |} |},
   log).
Proof.
  intros Hshape. apply bulkDeleteTool_empty.
  destruct Hshape as [[operator ->] | (condition & -> & Hmissing)].
  - reflexivity.
  - simpl. destruct Hmissing as [-> | ->].
    + reflexivity.
    + rewrite orb_true_r. reflexivity.
Qed.

(** C10.  A bulk-delete request whose criteria is a tree of composites whose
    leaves are all empty composites, such as [{AND, [{OR, []}]}], gets the
    safety failure and leaves the log of remote calls as it was, although the
    tree evaluates to [true] on every record. *)
Theorem bulk_delete_rejects_hollow_criteria
        remote zod_message (input : BulkDeleteToolInput) (log : list Call) :
  hollow (DeleteInput.criteria input) = true ->
  bulkDeleteTool remote zod_message input log =
  (Returned
     {| success := false;
        message := empty_criteria_message;
        results := [];
        stats := {| targetCount := 0; successCount := 0; failureCount := 0;
                    stats_dryRun := DeleteInput.dryRun input |} |},
   log)
  /\ forall record, evaluateCriteria record (DeleteInput.criteria input) = true.
Proof.
  intros Hhollow. split.
  - apply bulkDeleteTool_empty, hollow_isEmptyCriteria, Hhollow.
  - intros record. apply hollow_evaluates_true, Hhollow.
Qed.

(** ** Fetching only reads *)

Lemma extended_by_reads_refl log : extended_by_reads log log.
Proof. exists []. split; [by rewrite app_nil_r | constructor]. Qed.

Lemma extended_by_reads_trans log1 log2 log3 :
  extended_by_reads log1 log2 -> extended_by_reads log2 log3 ->
  extended_by_reads log1 log3.
Proof.
  intros (c1 & -> & H1) (c2 & -> & H2).
  exists (c1 ++ c2). split; [by rewrite app_assoc | by apply Forall_app].
Qed.

Lemma extended_by_reads_mutations log log' :
  extended_by_reads log log' -> mutations log' = mutations log.
Proof.
  intros (calls & -> & Hreads). unfold mutations.
  rewrite List.filter_app.
  assert (Hnone : List.filter is_mutation calls = []).
  { induction Hreads as [| c cs Hc _ IH]; simpl; [reflexivity |].
    rewrite Hc. exact IH. }
  rewrite Hnone. apply app_nil_r.
Qed.

(** A branch that returns without a call leaves the log as it is. *)
Ltac returns_at_once := intros [= <- <-]; apply extended_by_reads_refl.

(** A branch that returns after a step that extended the log by [H]. *)
Ltac returns_after H := intros [= <- <-]; exact H.

Lemma fetchMoneyRecords_reads_only remote : reads_only (fetchMoneyRecords remote).
Proof.
  intros params log outcome log'.
  unfold fetchMoneyRecords, bind, createZaimApiClient, perform, throw, ret.
  destruct (client_failure remote) as [e |].
  - returns_at_once.
  - destruct (respond remote log _) as [[money |] | e]; intros [= <- <-];
      (eexists; split; [reflexivity | by repeat constructor]).
Qed.

Lemma fetch_pages_reads fetchFn baseParams opts fuel :
  reads_only fetchFn ->
  forall currentPage allRecords log exit log',
    fetch_pages fetchFn baseParams opts fuel currentPage allRecords log = (exit, log') ->
    extended_by_reads log log'.
Proof.
  intros Hfn. induction fuel as [| fuel IH]; intros currentPage allRecords log exit log'; simpl.
  - returns_at_once.
  - destruct (_ >? _); [returns_at_once |].
    destruct (reached _ _); [returns_at_once |].
    destruct (fetchFn _ log) as [[page | e] log1] eqn:Hcall;
      pose proof (Hfn _ _ _ _ Hcall) as Hext.
    + destruct (_ <? _).
      * returns_after Hext.
      * intros Hrest. eapply extended_by_reads_trans; [exact Hext |].
        eapply IH, Hrest.
    + returns_after Hext.
Qed.

Lemma fetchAllRecords_reads zod_message fetchFn baseParams options :
  reads_only fetchFn ->
  forall log outcome log',
    fetchAllRecords zod_message fetchFn baseParams options log = (outcome, log') ->
    extended_by_reads log log'.
Proof.
  intros Hfn log outcome log'. unfold fetchAllRecords, throw.
  destruct (parseOptions options) as [opts |].
  - destruct (fetch_pages _ _ _ _ _ _ log) as [exit log1] eqn:Hloop.
    pose proof (fetch_pages_reads _ _ _ _ Hfn _ _ _ _ _ Hloop) as Hext.
    destruct exit as [currentPage allRecords more | currentPage allRecords error].
    + destruct (match opts_maxRecords opts with
                | Some maxRecords =>
                    if len allRecords >? maxRecords
                    then (slice_to maxRecords allRecords, true)
                    else (allRecords, more)
                | None => (allRecords, more)
                end) as [finalRecords more'].
      returns_after Hext.
    + returns_after Hext.
  - returns_at_once.
Qed.

Lemma collect_ranges_reads zod_message fetchFn baseParams options ranges :
  reads_only fetchFn ->
  forall allRecords pages log outcome log',
    collect_ranges zod_message fetchFn baseParams options ranges allRecords pages log
    = (outcome, log') ->
    extended_by_reads log log'.
Proof.
  intros Hfn. induction ranges as [| range rest IH];
    intros allRecords pages log outcome log'; simpl.
  - returns_at_once.
  - unfold bind.
    destruct (fetchAllRecords _ _ _ _ log) as [[result | e] log1] eqn:Hall;
      pose proof (fetchAllRecords_reads _ _ _ _ Hfn _ _ _ Hall) as Hext.
    + destruct (hasError result); [returns_after Hext |].
      destruct (reached _ _); [returns_after Hext |].
      intros Hrest. eapply extended_by_reads_trans; [exact Hext |].
      eapply IH, Hrest.
    + returns_after Hext.
Qed.

Lemma fetchByDateRanges_reads zod_message fetchFn startDate endDate baseParams options :
  reads_only fetchFn ->
  forall log outcome log',
    fetchByDateRanges zod_message fetchFn startDate endDate baseParams options log
    = (outcome, log') ->
    extended_by_reads log log'.
Proof.
  intros Hfn log outcome log'. unfold fetchByDateRanges.
  destruct (splitDateRange startDate endDate 31) as [| range rest].
  - returns_at_once.
  - unfold bind, ret.
    destruct (collect_ranges _ _ _ _ _ _ _ log) as [[acc | e] log1] eqn:Hloop;
      pose proof (collect_ranges_reads _ _ _ _ _ Hfn _ _ _ _ _ Hloop) as Hext;
      returns_after Hext.
Qed.

(** ** The bulk tools: the count check *)

Lemma bulkUpdateTool_count_check
      remote zod_message (input : BulkUpdateToolInput)
      (log log' : list Call) (fetched : PaginationResult) :
  validateUpdateFieldsInCriteria (UpdateInput.criteria input)
                                 (UpdateInput.updates input) = [] ->
  fetchByDateRanges zod_message (fetchMoneyRecords remote)
    (range_start (UpdateInput.dateRange input))
    (range_end (UpdateInput.dateRange input))
    SearchParams.empty bulk_fetch_options log = (Returned fetched, log') ->
  hasError fetched = false ->
  len (filterRecords (records fetched) (UpdateInput.criteria input))
  <> UpdateInput.expectedCount input ->
  bulkUpdateTool remote zod_message input log
  = (Returned
       (failed (count_mismatch_message
                  (UpdateInput.expectedCount input)
                  (len (filterRecords (records fetched) (UpdateInput.criteria input))))
               (len (filterRecords (records fetched) (UpdateInput.criteria input)))
               (UpdateInput.dryRun input)),
     log').
Proof.
  intros Hvalid Hfetch Hok Hcount. apply Z.eqb_neq in Hcount.
  unfold bulkUpdateTool, try_catch, bind.
  rewrite Hvalid. simpl. rewrite Hfetch, Hok, Hcount. reflexivity.
Qed.

Lemma bulkDeleteTool_count_check
      remote zod_message (input : BulkDeleteToolInput)
      (log log' : list Call) (fetched : PaginationResult) :
  isEmptyCriteria (DeleteInput.criteria input) = false ->
  fetchByDateRanges zod_message (fetchMoneyRecords remote)
    (range_start (DeleteInput.dateRange input))
    (range_end (DeleteInput.dateRange input))
    SearchParams.empty bulk_fetch_options log = (Returned fetched, log') ->
  hasError fetched = false ->
  len (filterRecords (records fetched) (DeleteInput.criteria input))
  <> DeleteInput.expectedCount input ->
  bulkDeleteTool remote zod_message input log
  = (Returned
       (failed (count_mismatch_message
                  (DeleteInput.expectedCount input)
                  (len (filterRecords (records fetched) (DeleteInput.criteria input))))
               (len (filterRecords (records fetched) (DeleteInput.criteria input)))
               (DeleteInput.dryRun input)),
     log').
Proof.
  intros Hnonempty Hfetch Hok Hcount. apply Z.eqb_neq in Hcount.
  unfold bulkDeleteTool, try_catch, bind.
  rewrite Hnonempty, Hfetch, Hok, Hcount. reflexivity.
Qed.

Lemma fetch_leaves_mutations
      remote zod_message startDate endDate baseParams options
      (log log' : list Call) (outcome : Outcome PaginationResult) :
  fetchByDateRanges zod_message (fetchMoneyRecords remote) startDate endDate
    baseParams options log = (outcome, log') ->
  mutations log' = mutations log.
Proof.
  intros Hfetch. apply extended_by_reads_mutations.
  eapply fetchByDateRanges_reads; [apply fetchMoneyRecords_reads_only | exact Hfetch].
Qed.

(** C1.  When the request passes validation (for an update, every updated
    field has a condition; for a delete, the criteria is not empty) and the
    fetch succeeds, a number of matching records different from
    [expectedCount] makes the tool return a failure whose message gives both
    the expected and the actual count; the remote calls issued are those of
    the fetch, none of them a write or a delete. *)
Theorem bulk_count_mismatch_fails
        remote zod_message (criteria : SearchCriteria) (dateRange : DateRange)
        (updates : UpdateFields) (expectedCount : Z) (dryRun : bool)
        (log log' : list Call) (fetched : PaginationResult) :
  fetchByDateRanges zod_message (fetchMoneyRecords remote)
    (range_start dateRange) (range_end dateRange)
    SearchParams.empty bulk_fetch_options log = (Returned fetched, log') ->
  hasError fetched = false ->
  len (filterRecords (records fetched) criteria) <> expectedCount ->
  let actualCount := len (filterRecords (records fetched) criteria) in
  let failure D : ToolOutput D :=
    {| success := false;
       message :=
         ("件数不一致エラー: 期待件数=" ++ pretty expectedCount
            ++ "件、実際の対象件数=" ++ pretty actualCount
            ++ "件。事前にzaim_advanced_searchで対象を確認してください。")%string;
       results := [];
       stats := {| targetCount := actualCount; successCount := 0;
                   failureCount := 0; stats_dryRun := dryRun |} |} in
  mutations log' = mutations log
  /\ (validateUpdateFieldsInCriteria criteria updates = [] ->
      bulkUpdateTool remote zod_message
        (UpdateInput.mk criteria dateRange updates expectedCount dryRun) log
      = (Returned (failure UpdateResultDetail), log'))
  /\ (isEmptyCriteria criteria = false ->
      bulkDeleteTool remote zod_message
        (DeleteInput.mk criteria dateRange expectedCount dryRun) log
      = (Returned (failure DeleteResultDetail), log')).
Proof.
  intros Hfetch Hok Hcount actualCount failure.
  split; [| split].
  - eapply fetch_leaves_mutations, Hfetch.
  - intros Hvalid.
    exact (bulkUpdateTool_count_check remote zod_message
             (UpdateInput.mk criteria dateRange updates expectedCount dryRun)
             log log' fetched Hvalid Hfetch Hok Hcount).
  - intros Hnonempty.
    exact (bulkDeleteTool_count_check remote zod_message
             (DeleteInput.mk criteria dateRange expectedCount dryRun)
             log log' fetched Hnonempty Hfetch Hok Hcount).
Qed.

Example bulk_count_mismatch_witness :
  let mismatch D : ToolOutput D :=
    {| success := false;
       message := "件数不一致エラー: 期待件数=5件、実際の対象件数=2件。事前にzaim_advanced_searchで対象を確認してください。";
       results := [];
       stats := {| targetCount := 2; successCount := 0; failureCount := 0;
                   stats_dryRun := false |} |} in
  let rename :=
    Updates.mk None None None None
               (Some (mkStringUpdate replace (Some "Market") None None))
               None None None None None in
  mutations [january_page] = []
  /\ bulkUpdateTool (sample_remote two_shops) sample_zod_message
       (UpdateInput.mk (place_contains "super") january rename 5 false) []
     = (Returned (mismatch UpdateResultDetail), [january_page])
  /\ bulkDeleteTool (sample_remote two_shops) sample_zod_message
       (DeleteInput.mk (place_contains "super") january 5 false) []
     = (Returned (mismatch DeleteResultDetail), [january_page]).
Proof.
  intros mismatch rename.
  destruct (bulk_count_mismatch_fails
              (sample_remote two_shops) sample_zod_message
              (place_contains "super") january rename 5 false
              [] [january_page]
              {| records := two_shops; pagesRetrieved := 1;
                 totalRecords := 2; hasMore := false;
                 hasError := false; errorMessage := None |})
    as (Hmutations & Hupdate & Hdelete).
  - vm_compute. reflexivity.
  - reflexivity.
  - vm_compute. discriminate.
  - split; [exact Hmutations | split].
    + apply Hupdate. vm_compute. reflexivity.
    + apply Hdelete. reflexivity.
Defined.

Example bulk_delete_rejects_empty_criteria_witness :
  bulkDeleteTool (sample_remote two_shops) sample_zod_message
    (DeleteInput.mk (Composite (mkComposite AND [])) january 1 false) []
  = (Returned
       {| success := false;
          message := empty_criteria_message;
          results := [];
          stats := {| targetCount := 0; successCount := 0; failureCount := 0;
                      stats_dryRun := false |} |},
     []).
Proof.
  apply (bulk_delete_rejects_empty_criteria
           (sample_remote two_shops) sample_zod_message
           (DeleteInput.mk (Composite (mkComposite AND [])) january 1 false) []).
  left. exists AND. reflexivity.
Defined.

Example bulk_delete_rejects_hollow_criteria_witness :
  hollow (Composite (mkComposite AND [Composite (mkComposite OR [])])) = true
  /\ bulkDeleteTool (sample_remote two_shops) sample_zod_message
       (DeleteInput.mk (Composite (mkComposite AND [Composite (mkComposite OR [])]))
                       january 2 true) []
     = (Returned
          {| success := false;
             message := empty_criteria_message;
             results := [];
             stats := {| targetCount := 0; successCount := 0; failureCount := 0;
                         stats_dryRun := true |} |},
        [])
  /\ forall record,
      evaluateCriteria record
        (Composite (mkComposite AND [Composite (mkComposite OR [])])) = true.
Proof.
  split; [reflexivity |].
  apply (bulk_delete_rejects_hollow_criteria
           (sample_remote two_shops) sample_zod_message
           (DeleteInput.mk (Composite (mkComposite AND [Composite (mkComposite OR [])]))
                           january 2 true) []).
  reflexivity.
Defined.

(** ** The bulk tools: no matching record *)

(** C5, as stated, fails: a request that passes validation, whose fetch
    succeeds and whose criteria matches no fetched record is answered with the
    count-mismatch failure when its [expectedCount] is 1. *)
Example zero_matches_expecting_one_fails :
  isEmptyCriteria (place_contains "bakery") = false
  /\ filterRecords two_shops (place_contains "bakery") = []
  /\ bulkDeleteTool (sample_remote two_shops) sample_zod_message
       (DeleteInput.mk (place_contains "bakery") january 1 false) []
     = (Returned
          {| success := false;
             message := "件数不一致エラー: 期待件数=1件、実際の対象件数=0件。事前にzaim_advanced_searchで対象を確認してください。";
             results := [];
             stats := {| targetCount := 0; successCount := 0; failureCount := 0;
                         stats_dryRun := false |} |},
        [january_page]).
Proof. repeat split; vm_compute; reflexivity. Qed.

(** C5, amended.  When the request passes validation, the fetch succeeds and
    no fetched record matches the criteria, the count check decides: with
    [expectedCount = 0] the tool returns success with an empty list of
    results, with any other [expectedCount] it returns the count-mismatch
    failure, whose message gives [expectedCount] and the actual count 0, with
    an empty list of results and a target count of 0.  In both cases the
    remote calls issued are those of the fetch. *)
Theorem bulk_zero_matches
        remote zod_message (criteria : SearchCriteria) (dateRange : DateRange)
        (updates : UpdateFields) (expectedCount : Z) (dryRun : bool)
        (log log' : list Call) (fetched : PaginationResult) :
  fetchByDateRanges zod_message (fetchMoneyRecords remote)
    (range_start dateRange) (range_end dateRange)
    SearchParams.empty bulk_fetch_options log = (Returned fetched, log') ->
  hasError fetched = false ->
  filterRecords (records fetched) criteria = [] ->
  let nothing_found D : ToolOutput D :=
    {| success := true;
       message := "対象レコードが見つかりませんでした。";
       results := [];
       stats := {| targetCount := 0; successCount := 0; failureCount := 0;
                   stats_dryRun := dryRun |} |} in
  let count_mismatch D : ToolOutput D :=
    {| success := false;
       message :=
         ("件数不一致エラー: 期待件数=" ++ pretty expectedCount
            ++ "件、実際の対象件数=" ++ pretty 0
            ++ "件。事前にzaim_advanced_searchで対象を確認してください。")%string;
       results := [];
       stats := {| targetCount := 0; successCount := 0; failureCount := 0;
                   stats_dryRun := dryRun |} |} in
  let answers {D} (run : Outcome (ToolOutput D) * list Call) : Prop :=
    (expectedCount = 0 -> run = (Returned (nothing_found D), log'))
    /\ (expectedCount <> 0 -> run = (Returned (count_mismatch D), log')) in
  mutations log' = mutations log
  /\ (validateUpdateFieldsInCriteria criteria updates = [] ->
      answers (bulkUpdateTool remote zod_message
                 (UpdateInput.mk criteria dateRange updates expectedCount dryRun) log))
  /\ (isEmptyCriteria criteria = false ->
      answers (bulkDeleteTool remote zod_message
                 (DeleteInput.mk criteria dateRange expectedCount dryRun) log)).
Proof.
  intros Hfetch Hok Hnone nothing_found count_mismatch answers.
  split; [| split].
  - eapply fetch_leaves_mutations, Hfetch.
  - intros Hvalid. split.
    + intros ->. unfold bulkUpdateTool, try_catch, bind. simpl.
      rewrite Hvalid. simpl. rewrite Hfetch, Hok, Hnone. reflexivity.
    + intros Hne.
      assert (Hcount : len (filterRecords (records fetched) criteria) <> expectedCount)
        by (rewrite Hnone; intros Heq; apply Hne; symmetry; exact Heq).
      rewrite (bulkUpdateTool_count_check remote zod_message
                 (UpdateInput.mk criteria dateRange updates expectedCount dryRun)
                 log log' fetched Hvalid Hfetch Hok Hcount).
      cbn [UpdateInput.criteria UpdateInput.expectedCount UpdateInput.dryRun].
      rewrite Hnone. reflexivity.
  - intros Hnonempty. split.
    + intros ->. unfold bulkDeleteTool, try_catch, bind. simpl.
      rewrite Hnonempty, Hfetch, Hok, Hnone. reflexivity.
    + intros Hne.
      assert (Hcount : len (filterRecords (records fetched) criteria) <> expectedCount)
        by (rewrite Hnone; intros Heq; apply Hne; symmetry; exact Heq).
      rewrite (bulkDeleteTool_count_check remote zod_message
                 (DeleteInput.mk criteria dateRange expectedCount dryRun)
                 log log' fetched Hnonempty Hfetch Hok Hcount).
      cbn [DeleteInput.criteria DeleteInput.expectedCount DeleteInput.dryRun].
      rewrite Hnone. reflexivity.
Qed.

Example bulk_zero_matches_witness :
  bulkDeleteTool (sample_remote two_shops) sample_zod_message
    (DeleteInput.mk (place_contains "bakery") january 0 false) []
  = (Returned
       {| success := true;
          message := "対象レコードが見つかりませんでした。";
          results := [];
          stats := {| targetCount := 0; successCount := 0; failureCount := 0;
                      stats_dryRun := false |} |},
     [january_page]).
Proof.
  refine (proj1 (proj2 (proj2 (bulk_zero_matches
                                 (sample_remote two_shops) sample_zod_message
                                 (place_contains "bakery") january Updates.empty
                                 0 false [] [january_page]
                                 {| records := two_shops; pagesRetrieved := 1;
                                    totalRecords := 2; hasMore := false;
                                    hasError := false; errorMessage := None |}
                                 _ _ _)) _) _).
  - vm_compute. reflexivity.
  - reflexivity.
  - vm_compute. reflexivity.
  - reflexivity.
  - reflexivity.
Defined.

(** ** Bulk update: updated fields must appear in the criteria *)

Lemma findFieldInCriteria_composite operator conditions fieldName :
  findFieldInCriteria (Composite (mkComposite operator conditions)) fieldName =
  match conditions with
  | [] => None
  | cond :: rest =>
      match findFieldInCriteria cond fieldName with
      | Some found => Some found
      | None => findFieldInCriteria (Composite (mkComposite operator rest)) fieldName
      end
  end.
Proof. destruct conditions; reflexivity. Qed.

Lemma findFieldInCriteria_mentions (criteria : SearchCriteria) (fieldName : string) :
  is_Some (findFieldInCriteria criteria fieldName) <-> mentions fieldName criteria.
Proof.
  split.
  - induction criteria as [condition | operator conditions IH]
      using SearchCriteria_tree_ind.
    + simpl. case_bool_decide as Hfield; [| intros [? [=]]].
      intros _. constructor. exact Hfield.
    + induction IH as [| cond rest Hcond _ IHrest];
        rewrite findFieldInCriteria_composite; [intros [? [=]] |].
      destruct (findFieldInCriteria cond fieldName) as [found |] eqn:Hfound.
      * intros _. apply (mentions_composite _ _ _ cond); [left |].
        apply Hcond. eauto.
      * intros Hrest. specialize (IHrest Hrest).
        inversion IHrest as [| ? ? c Hin Hc]; subst.
        apply (mentions_composite _ _ _ c); [right; exact Hin | exact Hc].
  - induction 1 as [condition Hfield | operator conditions cond Hin _ IH].
    + simpl. rewrite bool_decide_eq_true_2 by exact Hfield. eauto.
    + destruct IH as [found Hfound].
      induction Hin as [cond rest | cond other rest _ IHin];
        rewrite findFieldInCriteria_composite.
      * rewrite Hfound. eauto.
      * destruct (findFieldInCriteria other fieldName); [eauto |].
        exact (IHin Hfound).
Qed.

Lemma check_field_missing criteria updates (field : string) :
  update_defined updates field = true ->
  ~ mentions field criteria ->
  check_field criteria updates field = [missing_field_message field].
Proof.
  intros Hdefined Habsent. unfold check_field. rewrite Hdefined.
  destruct (findFieldInCriteria criteria field) as [found |] eqn:Hfound;
    [| reflexivity].
  exfalso. apply Habsent, findFieldInCriteria_mentions. eauto.
Qed.

Lemma defined_keys_known updates (field : string) :
  field ∈ defined_keys updates ->
  field ∈ numericFields \/ field = "date" \/ field ∈ stringFields.
Proof.
  unfold defined_keys, numericFields, stringFields.
  rewrite !elem_of_app.
  intros H.
  repeat match type of H with
         | _ \/ _ => destruct H as [H | H]
         end;
    match type of H with
    | _ ∈ match ?v with Some _ => _ | None => _ end =>
        destruct v; [apply list_elem_of_singleton in H as -> | by apply elem_of_nil in H]
    end;
    first [ left; set_solver | right; left; reflexivity | right; right; set_solver ].
Qed.

Lemma validate_reports criteria updates (field : string) :
  update_defined updates field = true ->
  ~ mentions field criteria ->
  missing_field_message field ∈ validateUpdateFieldsInCriteria criteria updates.
Proof.
  intros Hdefined Habsent.
  pose proof (check_field_missing criteria updates field Hdefined Habsent) as Hcheck.
  assert (Hflat : forall fields : list string,
             field ∈ fields ->
             missing_field_message field ∈ flat_map (check_field criteria updates) fields).
  { intros fields Hin. apply list_elem_of_In, in_flat_map.
    exists field. split; [by apply list_elem_of_In |].
    rewrite Hcheck. left. reflexivity. }
  unfold validateUpdateFieldsInCriteria.
  apply bool_decide_eq_true_1, defined_keys_known in Hdefined.
  rewrite !elem_of_app.
  destruct Hdefined as [Hnum | [-> | Hstr]].
  - left. apply Hflat, Hnum.
  - right. left. rewrite Hcheck. left.
  - right. right. apply Hflat, Hstr.
Qed.

Lemma append_cons (x : ascii) (a b : string) :
  (String x a ++ b)%string = String x (a ++ b)%string.
Proof. reflexivity. Qed.

Lemma append_empty_r (a : string) : (a ++ EmptyString)%string = a.
Proof.
  induction a as [| x a IH]; [reflexivity |].
  rewrite append_cons. f_equal. exact IH.
Qed.

Lemma append_assoc (a b c : string) : ((a ++ b) ++ c = a ++ (b ++ c))%string.
Proof.
  induction a as [| x a IH]; [reflexivity |].
  rewrite !append_cons. f_equal. exact IH.
Qed.

Lemma occurs_in_join (sep t : string) (xs : list string) :
  t ∈ xs -> occurs_in t (join sep xs).
Proof.
  unfold join. induction 1 as [t xs | t x xs Hin IH].
  - destruct xs as [| y ys].
    + exists EmptyString, EmptyString. simpl.
      symmetry. apply append_empty_r.
    + exists EmptyString, (sep ++ String.concat sep (y :: ys))%string. reflexivity.
  - destruct IH as (pre & post & Heq).
    destruct xs as [| y ys]; [by apply elem_of_nil in Hin |].
    change (String.concat sep (x :: y :: ys))
      with (x ++ sep ++ String.concat sep (y :: ys))%string.
    rewrite Heq. exists (x ++ sep ++ pre)%string, post.
    by rewrite !append_assoc.
Qed.

Lemma occurs_in_trans (a b c : string) :
  occurs_in a b -> occurs_in b c -> occurs_in a c.
Proof.
  intros (p1 & q1 & ->) (p2 & q2 & ->).
  exists (p2 ++ p1)%string, (q1 ++ q2)%string. by rewrite !append_assoc.
Qed.

Lemma occurs_in_suffix (pre t s : string) :
  occurs_in t s -> occurs_in t (pre ++ s).
Proof.
  intros (p & q & ->). exists (pre ++ p)%string, q. by rewrite !append_assoc.
Qed.

Lemma missing_field_message_names (field : string) :
  occurs_in ("「" ++ field ++ "」") (missing_field_message field).
Proof.
  exists "更新フィールド"%string.
  eexists. unfold missing_field_message.
  rewrite !append_assoc. reflexivity.
Qed.

(** C3.  When some field that the update spec sets has no predicate on that
    field name anywhere in the criteria tree, the tool fails with the
    consistency error, whose message holds, for each such field, the sentence
    that names it; the log of remote calls is left as it was (no page is
    fetched, nothing is written). *)
Theorem bulk_update_rejects_uncovered_fields
        remote zod_message (input : BulkUpdateToolInput) (log : list Call) :
  (exists field,
      update_defined (UpdateInput.updates input) field = true
      /\ ~ mentions field (UpdateInput.criteria input)) ->
  let errors :=
    validateUpdateFieldsInCriteria (UpdateInput.criteria input)
                                   (UpdateInput.updates input) in
  bulkUpdateTool remote zod_message input log
  = (Returned
       {| success := false;
          message := ("整合性エラー: " ++ join " " errors)%string;
          results := [];
          stats := {| targetCount := 0; successCount := 0; failureCount := 0;
                      stats_dryRun := UpdateInput.dryRun input |} |},
     log)
  /\ forall field,
      update_defined (UpdateInput.updates input) field = true ->
      ~ mentions field (UpdateInput.criteria input) ->
      missing_field_message field ∈ errors
      /\ occurs_in ("「" ++ field ++ "」") ("整合性エラー: " ++ join " " errors).
Proof.
  intros (field & Hdefined & Habsent) errors.
  assert (Hreports : forall f,
             update_defined (UpdateInput.updates input) f = true ->
             ~ mentions f (UpdateInput.criteria input) ->
             missing_field_message f ∈ errors)
    by (intros f; apply validate_reports).
  split.
  - unfold bulkUpdateTool, try_catch. fold errors.
    destruct errors as [| e es] eqn:Herrors.
    + specialize (Hreports field Hdefined Habsent). by apply elem_of_nil in Hreports.
    + reflexivity.
  - intros f Hf Hnot. split; [by apply Hreports |].
    apply occurs_in_suffix.
    eapply occurs_in_trans; [apply missing_field_message_names |].
    apply occurs_in_join, Hreports; assumption.
Qed.

Example bulk_update_rejects_uncovered_fields_witness :
  let updates :=
    Updates.mk (Some 5) None None None None None None None None None in
  let text :=
    "整合性エラー: 更新フィールド「category_id」が検索条件に含まれていません。検索条件に「category_id」の条件を追加してください。" in
  bulkUpdateTool (sample_remote two_shops) sample_zod_message
    (UpdateInput.mk (place_contains "X") january updates 1 false) []
  = (Returned
       {| success := false;
          message := text;
          results := [];
          stats := {| targetCount := 0; successCount := 0; failureCount := 0;
                      stats_dryRun := false |} |},
     [])
  /\ occurs_in "「category_id」" text.
Proof.
  intros updates text.
  assert (Hnot : ~ mentions "category_id" (place_contains "X"))
    by (intros H; inversion H; discriminate).
  destruct (bulk_update_rejects_uncovered_fields
              (sample_remote two_shops) sample_zod_message
              (UpdateInput.mk (place_contains "X") january updates 1 false) [])
    as [Hresult Hnames].
  { exists "category_id". split; [reflexivity | exact Hnot]. }
  split; [exact Hresult |].
  exact (proj2 (Hnames "category_id" eq_refl Hnot)).
Defined.

(** ** Bulk update: the dry-run preview *)
















(** ** Deduplication *)






(** The deduplication test of the test suite. *)
Example removeDuplicates_keeps_first :
  removeDuplicates [shop 3; shop 1; shop 2; shop 1] = [shop 3; shop 1; shop 2].
Proof. vm_compute. reflexivity. Qed.

(** ** The fetch orchestrator: truncation to [maxRecords] *)

Lemma len_take_le {A} (n : nat) (l : list A) : len (take n l) <= Z.of_nat n.
Proof. unfold len. rewrite length_take. lia. Qed.

Lemma len_take_exact {A} (m : Z) (l : list A) :
  0 <= m -> m <= len l -> len (take (Z.to_nat m) l) = m.
Proof. unfold len. intros Hm Hl. rewrite length_take. lia. Qed.








(** A window of one sub-window whose service holds five records, fetched
    with [maxRecords = 3]: [fetchAllRecords] cuts the five records to three
    and reports [hasMore]; [fetchByDateRanges] accumulates these three, which
    do not exceed the limit, and reports no more. *)
Example one_sub_window_reports_no_more :
  let fetchFn :=
    fetchMoneyRecords (sample_remote [shop 1; shop 2; shop 3; shop 4; shop 5]) in
  (fun result => (records result, hasMore result))
    <$> returned (fetchAllRecords sample_zod_message fetchFn
                    (with_dates SearchParams.empty january) (at_most 3) [])
  = Some ([shop 1; shop 2; shop 3], true)
  /\ (fun result => (records result, hasMore result))
       <$> returned (fetchByDateRanges sample_zod_message fetchFn
                       "2024-01-01" "2024-01-31" SearchParams.empty (at_most 3) [])
     = Some ([shop 1; shop 2; shop 3], false).
Proof. split; vm_compute; reflexivity. Qed.



(** ** The output formatter and [maxRecords] *)

Lemma format_loop_bounds type_error_message mode fields maxCharsPerRecord
      maxTotalChars total rest formattedRecords totalChars out :
  format_loop type_error_message mode fields maxCharsPerRecord maxTotalChars
              total rest formattedRecords totalChars = Returned out ->
  len (Formatted.records out) <= len formattedRecords + len rest
  /\ Formatted.count out = len (Formatted.records out).
Proof.
  revert formattedRecords totalChars.
  induction rest as [| record rest IH]; intros formattedRecords totalChars; simpl.
  - intros [= <-]. simpl. unfold len. simpl. lia.
  - destruct (stringifyWithLimit _ _ _) as [[recordStr |] | e]; try discriminate.
    destruct (exceeded _ _).
    + intros [= <-]. simpl. unfold len. simpl. lia.
    + intros Hrest. apply IH in Hrest as [Hlen Hcount].
      split; [| exact Hcount].
      unfold len in *. rewrite length_app in Hlen. simpl in *. lia.
Qed.

Lemma formatOutput_bounds type_error_message records outputControl out :
  formatOutput type_error_message records outputControl = Returned out ->
  len (Formatted.records out) <= len records
  /\ Formatted.count out = len (Formatted.records out).
Proof.
  unfold formatOutput. intros Hout.
  apply format_loop_bounds in Hout as [Hlen Hcount].
  split; [| exact Hcount]. unfold len in *. simpl in Hlen. lia.
Qed.

Lemma slice_to_bound {A} (m : Z) (l : list A) : 0 < m -> len (slice_to m l) <= m.
Proof.
  intros Hm. unfold slice_to.
  replace (m <? 0) with false by (symmetry; lia).
  etransitivity; [apply len_take_le | lia].
Qed.

(** C7, as stated, fails: [formatOutput] does not read [maxRecords]; given
    two records and an output control with [maxRecords = 1] it outputs
    both. *)
Example formatOutput_ignores_maxRecords :
  formatOutput sample_type_error two_shops (Some (output_at_most 1))
  = Returned (Formatted.mk [Fields (sample_record 1 "2024-01-15" 1000 "Super A");
                            Fields (sample_record 2 "2024-01-16" 2000 "Super B")]
                           2 false 0).
Proof. vm_compute. reflexivity. Qed.

Lemma searchAndSort_bound localeCompare Array_sort type_error_message
      (records : list ZaimMoney) (criteria : SearchCriteria) (m : Z)
      (sorted : list ZaimMoney) :
  0 < m ->
  searchAndSort localeCompare Array_sort type_error_message records criteria (Some m)
  = Returned sorted ->
  len sorted <= m.
Proof.
  intros Hm Hsorted. unfold searchAndSort in Hsorted.
  destruct (sortRecords _ _ _ _) as [result | e]; [| discriminate].
  replace (m >? 0) with true in Hsorted by (symmetry; lia).
  injection Hsorted as <-. apply slice_to_bound, Hm.
Qed.

(** C7, amended.  The bound is applied by [searchAndSort], to which the search
    tool passes [output.maxRecords], before [formatOutput] runs: for a
    positive [maxRecords = m] (the schema accepts no other), the list that
    [searchAndSort] returns has at most [m] records, whatever the character
    caps are, and [formatOutput], which does not read [maxRecords], outputs
    no more records than it is given; so the search tool outputs at most [m]
    records. *)
Theorem search_output_at_most_maxRecords
        remote zod_message localeCompare Array_sort type_error_message
        (input : AdvancedSearchToolInput) (outputControl : OutputControl) (m : Z)
        (log log' : list Call) (out : AdvancedSearchToolOutput) :
  SearchInput.output input = Some outputControl ->
  Output.maxRecords outputControl = Some m ->
  0 < m ->
  advancedSearchTool remote zod_message localeCompare Array_sort
                     type_error_message input log = (Returned out, log') ->
  len (SearchOutput.records out) <= m
  /\ SearchOutput.count out <= m
  /\ forall records criteria sorted,
      searchAndSort localeCompare Array_sort type_error_message records criteria
                    (Some m) = Returned sorted ->
      len sorted <= m
      /\ forall formatted,
          formatOutput type_error_message sorted (Some outputControl)
          = Returned formatted ->
          len (Formatted.records formatted) <= len sorted
          /\ forall other,
              formatOutput type_error_message sorted
                (Some (Output.mk (Output.mode outputControl)
                                 (Output.fields outputControl)
                                 (Output.maxCharsPerRecord outputControl)
                                 (Output.maxTotalChars outputControl) other))
              = Returned formatted.
Proof.
  intros Houtput Hmax Hm Hrun.
  assert (Hpipeline :
            forall records criteria sorted,
              searchAndSort localeCompare Array_sort type_error_message records
                            criteria (Some m) = Returned sorted ->
              len sorted <= m
              /\ forall formatted,
                  formatOutput type_error_message sorted (Some outputControl)
                  = Returned formatted ->
                  len (Formatted.records formatted) <= len sorted
                  /\ Formatted.count formatted = len (Formatted.records formatted)).
  { intros records criteria sorted Hsorted.
    split; [eapply searchAndSort_bound; eassumption |].
    intros formatted Hformatted. eapply formatOutput_bounds, Hformatted. }
  assert (Hempty : len (@nil FormattedRecord) <= m /\ 0 <= m)
    by (unfold len; simpl; lia).
  split; [| split].
  3: { intros records criteria sorted Hsorted.
       destruct (Hpipeline _ _ _ Hsorted) as [Hlen Hformat].
       split; [exact Hlen |].
       intros formatted Hformatted. split; [apply Hformat, Hformatted |].
       intros other. exact Hformatted. }
  all: unfold advancedSearchTool, try_catch, bind, ret, throw in Hrun;
    rewrite Houtput in Hrun; simpl in Hrun; rewrite Hmax in Hrun;
    destruct (fetchByDateRanges _ _ _ _ _ _ _) as [[fetched | e] log1];
    [| injection Hrun as <- <-; simpl; tauto];
    destruct (hasError fetched); [injection Hrun as <- <-; simpl; tauto |];
    destruct (searchAndSort _ _ _ _ _ _) as [sorted | e] eqn:Hsorted;
    simpl in Hrun; [| injection Hrun as <- <-; simpl; tauto];
    destruct (formatOutput _ _ _) as [formatted | e] eqn:Hformatted;
    simpl in Hrun; injection Hrun as <- <-; simpl; [| tauto];
    destruct (Hpipeline _ _ _ Hsorted) as [Hlen Hformat];
    destruct (Hformat _ Hformatted) as [Hrecords Hcount]; lia.
Qed.

Example search_output_at_most_maxRecords_witness :
  exists out log',
    advancedSearchTool (sample_remote two_shops) sample_zod_message
      sample_localeCompare sample_sort sample_type_error
      (SearchInput.mk (Some (place_contains "super")) january
                      (Some (output_at_most 1)) None) []
    = (Returned out, log')
    /\ SearchOutput.success out = true
    /\ len (SearchOutput.records out) <= 1
    /\ SearchOutput.count out <= 1.
Proof.
  destruct (advancedSearchTool (sample_remote two_shops) sample_zod_message
              sample_localeCompare sample_sort sample_type_error
              (SearchInput.mk (Some (place_contains "super")) january
                              (Some (output_at_most 1)) None) [])
    as [[out | e] log'] eqn:Hrun; [| vm_compute in Hrun; discriminate].
  destruct (search_output_at_most_maxRecords
              (sample_remote two_shops) sample_zod_message
              sample_localeCompare sample_sort sample_type_error
              (SearchInput.mk (Some (place_contains "super")) january
                              (Some (output_at_most 1)) None)
              (output_at_most 1) 1 [] log' out eq_refl eq_refl eq_refl Hrun)
    as (Hrecords & Hcount & _).
  exists out, log'. repeat split; try assumption.
  vm_compute in Hrun. injection Hrun as <- _. reflexivity.
Defined.

(** ** The loops end before their fuel *)

(** With chunks of at least one day, [split_loop] gives the same ranges for
    every fuel above the number of days left. *)
Lemma split_loop_fuel (daysPerChunk : Z) (fuel1 fuel2 : nat) (currentStart end_ : Z) :
  1 <= daysPerChunk ->
  (Z.to_nat (end_ - currentStart + 1) <= fuel1)%nat ->
  (Z.to_nat (end_ - currentStart + 1) <= fuel2)%nat ->
  split_loop fuel1 daysPerChunk currentStart end_
  = split_loop fuel2 daysPerChunk currentStart end_.
Proof.
  intros Hchunk. revert fuel2 currentStart.
  induction fuel1 as [| fuel1 IH]; intros fuel2 currentStart H1 H2.
  - destruct fuel2 as [| fuel2]; [reflexivity |]. simpl.
    destruct (currentStart <=? end_) eqn:Hle; [| reflexivity]. lia.
  - destruct fuel2 as [| fuel2]; simpl.
    + destruct (currentStart <=? end_) eqn:Hle; [| reflexivity]. lia.
    + destruct (currentStart <=? end_) eqn:Hle; [| reflexivity].
      f_equal. apply IH; destruct (_ >? _) eqn:Hgt; lia.
Qed.

(** [fetch_pages] gives the same result for every fuel above the number of
    pages that [opts.maxPages] still allows: the loop of [fetchAllRecords]
    ends by its own tests. *)
Lemma fetch_pages_fuel fetchFn baseParams opts (fuel1 fuel2 : nat)
      (currentPage : Z) (allRecords : list ZaimMoney) (log : list Call) :
  (Z.to_nat (opts_maxPages opts - (currentPage - opts_startPage opts)) < fuel1)%nat ->
  (Z.to_nat (opts_maxPages opts - (currentPage - opts_startPage opts)) < fuel2)%nat ->
  fetch_pages fetchFn baseParams opts fuel1 currentPage allRecords log
  = fetch_pages fetchFn baseParams opts fuel2 currentPage allRecords log.
Proof.
  revert fuel2 currentPage allRecords log.
  induction fuel1 as [| fuel1 IH]; intros fuel2 currentPage allRecords log H1 H2;
    [lia |].
  destruct fuel2 as [| fuel2]; [lia |]. simpl.
  destruct (_ >? _) eqn:Hpages; [reflexivity |].
  destruct (reached _ _); [reflexivity |].
  destruct (fetchFn _ log) as [[page | e] log1]; [| reflexivity].
  destruct (_ <? _); [reflexivity |].
  apply IH; lia.
Qed.

(** ** The examples of the test suites *)

(** [splitDateRange('2024-01-01', '2024-03-31', 31)] gives three ranges, the
    first from 2024-01-01 to 2024-01-31, the second from 2024-02-01. *)
Example splitDateRange_quarter :
  splitDateRange "2024-01-01" "2024-03-31" 31
  = [ {| range_start := "2024-01-01"; range_end := "2024-01-31" |};
      {| range_start := "2024-02-01"; range_end := "2024-03-02" |};
      {| range_start := "2024-03-03"; range_end := "2024-03-31" |} ].
Proof. vm_compute. reflexivity. Qed.

Example splitDateRange_reversed : splitDateRange "2024-01-31" "2024-01-01" 31 = [].
Proof. vm_compute. reflexivity. Qed.

Example splitDateRange_invalid : splitDateRange "invalid" "2024-01-31" 31 = [].
Proof. vm_compute. reflexivity. Qed.

(** A date predicate follows the order of the date strings. *)
Example date_before :
  evaluateCriteria (sample_record 1 "2024-01-15" 1000 "Shop")
    (Single (OfDate (mkDateCondition (Some DBefore) (Some "2024-01-16") None None)))
  = true.
Proof. vm_compute. reflexivity. Qed.

(** A partial update replaces every occurrence of the pattern. *)
Example partial_update_replaces_all :
  applyStringUpdate (Present "Super A / Super B")
    (mkStringUpdate partial None (Some "Super") (Some "Hyper"))
  = "Hyper A / Hyper B".
Proof. vm_compute. reflexivity. Qed.

(** Two records, no criteria, output mode [id_only]: the identities, the
    later date first. *)
Example search_ids_by_date :
  returned
    (advancedSearchTool
       (sample_remote [sample_record 1 "2024-01-16" 2000 "Shop";
                       sample_record 2 "2024-01-15" 1000 "Shop"])
       sample_zod_message sample_localeCompare sample_sort sample_type_error
       (SearchInput.mk None january
                       (Some (Output.mk (Some id_only) None None None None)) None)
       [])
  = Some (SearchOutput.mk [IdOnly (JNum 1); IdOnly (JNum 2)] 2 false 0 true
            "2件の記録を取得しました（全2件中）"
            {| meta_pagesRetrieved := 1; totalFetched := 2;
               matchedCount := 2; outputCount := 2 |}).
Proof. vm_compute. reflexivity. Qed.

(** A bulk delete that the service refuses for one record goes on with the
    next and reports both. *)
Example bulk_delete_partial_failure :
  let remote :=
    {| client_failure := None;
       respond := fun _ call =>
                    match call with
                    | Get _ _ => Returned (MoneyResponse two_shops)
                    | Delete "/v2/home/money/payment/1" =>
                        Threw (ErrorObject "Delete failed")
                    | Put _ _ | Delete _ => Returned OtherResponse
                    end |} in
  (fun out => (success out, message out, stats out))
    <$> returned (bulkDeleteTool remote sample_zod_message
                    (DeleteInput.mk (place_contains "super") january 2 false) [])
  = Some (false, "1件の削除に成功、1件の削除に失敗しました。",
          {| targetCount := 2; successCount := 1; failureCount := 1;
             stats_dryRun := false |}).
Proof. vm_compute. reflexivity. Qed.

(** [fetchAllRecords] walks the pages until a short one. *)
Example fetchAllRecords_walks_pages :
  returned
    (fetchAllRecords sample_zod_message
       (fetchMoneyRecords
          (scripted_remote [Returned (MoneyResponse [shop 1; shop 2]);
                            Returned (MoneyResponse [shop 3])]))
       SearchParams.empty (Pagination.mk None (Some 2) None None (Some 0)) [])
  = Some {| records := [shop 1; shop 2; shop 3];
            pagesRetrieved := 2;
            totalRecords := 3;
            hasMore := false;
            hasError := false;
            errorMessage := None |}.
Proof. vm_compute. reflexivity. Qed.

(** [fetchAllRecords] cuts the records at [maxRecords] and reports more. *)
Example fetchAllRecords_respects_maxRecords :
  returned
    (fetchAllRecords sample_zod_message
       (fetchMoneyRecords
          (scripted_remote [Returned (MoneyResponse [shop 1; shop 2]);
                            Returned (MoneyResponse [shop 3; shop 4])]))
       SearchParams.empty (Pagination.mk None (Some 2) (Some 3) None (Some 0)) [])
  = Some {| records := [shop 1; shop 2; shop 3];
            pagesRetrieved := 3;
            totalRecords := 3;
            hasMore := true;
            hasError := false;
            errorMessage := None |}.
Proof. vm_compute. reflexivity. Qed.

(** [fetchAllRecords] stops after [maxPages] calls and reports more. *)
Example fetchAllRecords_respects_maxPages :
  let run :=
    fetchAllRecords sample_zod_message
      (fetchMoneyRecords (sample_remote [shop 1; shop 2]))
      SearchParams.empty (Pagination.mk None (Some 2) None (Some 2) (Some 0)) [] in
  hasMore <$> returned run = Some true
  /\ List.length (snd run) = 2%nat.
Proof. split; vm_compute; reflexivity. Qed.

(** An error of the page fetcher ends the walk; the records read so far are
    kept and the message is reported. *)
Example fetchAllRecords_keeps_records_on_error :
  returned
    (fetchAllRecords sample_zod_message
       (fetchMoneyRecords
          (scripted_remote [Returned (MoneyResponse [shop 1]);
                            Threw (ErrorObject "API Error")]))
       SearchParams.empty (Pagination.mk None (Some 1) None None (Some 0)) [])
  = Some {| records := [shop 1];
            pagesRetrieved := 2;
            totalRecords := 1;
            hasMore := true;
            hasError := true;
            errorMessage := Some "API Error" |}.
Proof. vm_compute. reflexivity. Qed.

(** Options that the schema rejects make [fetchAllRecords] throw. *)
Example fetchAllRecords_rejects_page_size :
  fetchAllRecords sample_zod_message (fetchMoneyRecords (sample_remote []))
    SearchParams.empty (Pagination.mk None (Some 150) None None None) []
  = (Threw (ErrorObject "Invalid pagination options"), []).
Proof. vm_compute. reflexivity. Qed.

(** The string, number, date and mode predicates of the evaluator's test
    suite, each with the result the suite expects. *)
Example evaluator_predicates :
  let on_place operator value :=
    Single (OfString (mkStringCondition Fplace (Some operator) value None)) in
  let on_amount operator value :=
    Single (OfNumber (mkNumberCondition Famount (Some operator) (Some value)
                                        None None)) in
  let amount_between lo hi :=
    Single (OfNumber (mkNumberCondition Famount (Some NBetween) None
                                        (Some lo) (Some hi))) in
  let on_date operator value :=
    Single (OfDate (mkDateCondition (Some operator) (Some value) None None)) in
  let date_between s e :=
    Single (OfDate (mkDateCondition (Some DBetween) None (Some s) (Some e))) in
  let on_mode value := Single (OfMode (mkModeCondition (Some MEquals) value)) in
  map (evaluateCriteria mockRecord)
      [ on_place SEquals "スーパーマーケット"; on_place SEquals "スーパー";
        on_place SContains "スーパー"; on_place SStartsWith "スーパー";
        on_place SEndsWith "マーケット";
        on_amount NEquals 1500; on_amount NNotEquals 1000;
        on_amount NGreaterThan 1000; on_amount NLessThan 2000;
        on_amount NGreaterOrEqual 1500; on_amount NLessOrEqual 1500;
        amount_between 1000 2000; amount_between 2000 3000;
        on_date DEquals "2024-01-15"; on_date DBefore "2024-01-20";
        on_date DAfter "2024-01-10"; on_date DOnOrBefore "2024-01-15";
        on_date DOnOrAfter "2024-01-15";
        date_between "2024-01-01" "2024-01-31";
        date_between "2024-02-01" "2024-02-28";
        on_mode payment; on_mode income ]
  = [ true; false; true; true; true;
      true; true; true; true; true; true; true; false;
      true; true; true; true; true; true; false;
      true; false ].
Proof. vm_compute. reflexivity. Qed.

(** The composite conditions of the evaluator's test suite. *)
Example evaluator_composites :
  let place_has value :=
    Single (OfString (mkStringCondition Fplace (Some SContains) value None)) in
  let amount_above value :=
    Single (OfNumber (mkNumberCondition Famount (Some NGreaterThan) (Some value)
                                        None None)) in
  let is_payment := Single (OfMode (mkModeCondition (Some MEquals) payment)) in
  map (evaluateCompositeCondition mockRecord)
      [ mkComposite AND [place_has "スーパー"; amount_above 1000];
        mkComposite AND [place_has "スーパー"; amount_above 2000];
        mkComposite OR [place_has "コンビニ"; amount_above 1000];
        mkComposite OR [place_has "コンビニ"; amount_above 2000];
        mkComposite AND [];
        mkComposite AND
          [is_payment;
           Composite (mkComposite OR [place_has "スーパー"; place_has "コンビニ"])] ]
  = [true; false; true; false; true; true].
Proof. vm_compute. reflexivity. Qed.

(** A field that holds [undefined] makes the predicate false. *)
Example evaluator_undefined_place :
  let recordWithoutPlace :=
    Money.mk (Present 1) (Present payment) Absent (Present "2024-01-15")
             (Present 101) (Present 201) Absent (Present 1500)
             (Present "テストコメント") Undefined (Present "食料品") (Present 1)
             (Present "2024-01-15T10:00:00+09:00") (Present "JPY")
             Absent Absent Absent (Present 1) (Present 0) in
  evaluateStringCondition recordWithoutPlace
    (mkStringCondition Fplace (Some SContains) "スーパー" None) = false.
Proof. reflexivity. Qed.

(** An applied partial update: the new place is reported and sent. *)
Example bulk_update_partial_replace :
  let record := sample_record 1 "2024-01-15" 1000 "ABC店舗DEF" in
  let updates :=
    Updates.mk None None None None
               (Some (mkStringUpdate partial None (Some "店舗") (Some "ショップ")))
               None None None None None in
  let run :=
    bulkUpdateTool (sample_remote [record]) sample_zod_message
      (UpdateInput.mk (place_contains "店舗") january updates 1 false) [] in
  (fun out =>
     (success out,
      map (fun detail => UpdateDetail.after detail ≫= (.!! "place")) (results out)))
    <$> returned run
  = Some (true, [Some (JStr "ABCショップDEF")])
  /\ map (fun call =>
            match call with
            | Put endpoint body => Some (endpoint, body !! "place", body !! "mapping")
            | Get _ _ | Delete _ => None
            end) (snd run)
     = [None;
        Some ("/v2/home/money/payment/1", Some (JStr "ABCショップDEF"), Some (JNum 1))].
Proof. split; vm_compute; reflexivity. Qed.
